(** * Form widgets of oscar/forms/widgets.py

    A shallow embedding of [src/oscar/forms/widgets.py]: the format-token
    translation helpers, the date/time picker widgets, [AdvancedSelect] and
    the remote-select widgets, with the Python primitives they call.

    Conventions of the embedding:
    - a Python [str] is a [string], read as a sequence of code points
      below 256; [isspace] is Python 3's [str.isspace] on that range;
    - a [dict] whose iteration order matters (the replacement tables) is an
      association list; the functions are given for the insertion order,
      which Python 3.7 guarantees, and with the order as an argument, for
      the interpreters that go through a [dict] in another order; any other
      [dict] is a [gmap];
    - a call that can raise returns a [result]; mutable dictionaries that
      are shared with the caller live in a [heap] of objects. *)

From Stdlib Require Import Ascii String ZArith Bool Lia.
From Stdlib Require Import DecimalString.
From stdpp Require Import base option list gmap strings fin_maps.

#[local] Arguments String.append !_ _ / : simpl nomatch.
#[local] Arguments Ascii.eqb : simpl never.
#[local] Open Scope char_scope.
#[local] Open Scope string_scope.
#[local] Open Scope stdpp_scope.

(** ** Exceptions *)

Inductive exn : Type :=
| IndexError
| KeyError
| ValueError
| AttributeError
| TypeError.

Inductive result (A : Type) : Type :=
| Ok (a : A)
| Raise (e : exn).
Arguments Ok {A} a.
Arguments Raise {A} e.

#[global] Instance result_ret : MRet result := fun _ a => Ok a.
#[global] Instance result_bind : MBind result := fun _ _ k r =>
  match r with
  | Ok a => k a
  | Raise e => Raise e
  end.

Definition returns {A} (r : result A) : Prop := exists a, r = Ok a.

(** ** Python string primitives *)

Module Py.

(** [str.isspace] of Python 3 for a code point below 256: TAB..CR, FS..US,
    SPACE, NEL and NBSP. *)
Definition isspace (c : ascii) : bool :=
  let n := N_of_ascii c in
  ((9 <=? n) && (n <=? 13) || (28 <=? n) && (n <=? 32) || (n =? 133) || (n =? 160))%N.

Definition is_empty (s : string) : bool :=
  match s with
  | EmptyString => true
  | String _ _ => false
  end.

(** [bool(s)] for a string. *)
Definition truthy (s : string) : bool := negb (is_empty s).

Fixpoint lstrip (s : string) : string :=
  match s with
  | EmptyString => EmptyString
  | String c s' => if isspace c then lstrip s' else s
  end.

Fixpoint rstrip (s : string) : string :=
  match s with
  | EmptyString => EmptyString
  | String c s' =>
      let r := rstrip s' in
      if isspace c && is_empty r then EmptyString else String c r
  end.

(** [s.strip()] *)
Definition strip (s : string) : string := rstrip (lstrip s).

Definition starts_word (s : string) : bool :=
  match s with
  | EmptyString => false
  | String c _ => negb (isspace c)
  end.

(** [s.split()]: the maximal runs of non-whitespace characters. *)
Fixpoint split (s : string) : list string :=
  match s with
  | EmptyString => []
  | String c s' =>
      if isspace c then split s'
      else if starts_word s' then
        match split s' with
        | w :: ws => String c w :: ws
        | [] => [String c EmptyString]
        end
      else String c EmptyString :: split s'
  end.

(** [s.split(sep)] for a one-character separator: never an empty list. *)
Fixpoint split_on (sep : ascii) (s : string) : list string :=
  match s with
  | EmptyString => [EmptyString]
  | String c s' =>
      if Ascii.eqb c sep then EmptyString :: split_on sep s'
      else match split_on sep s' with
           | w :: ws => String c w :: ws
           | [] => [String c EmptyString]
           end
  end.

(** [sep.join(l)] *)
Fixpoint join (sep : string) (l : list string) : string :=
  match l with
  | [] => EmptyString
  | [w] => w
  | w :: ws => w +:+ sep +:+ join sep ws
  end.

Fixpoint intersperse_all (new s : string) : string :=
  match s with
  | EmptyString => new
  | String c s' => new +:+ String c (intersperse_all new s')
  end.

(** The scan of [s.replace(old, new)] for a non-empty [old]: [skip] counts
    the characters of a match that are still to be dropped. *)
Fixpoint replace_scan (old new : string) (skip : nat) (s : string) : string :=
  match s with
  | EmptyString => EmptyString
  | String c s' =>
      match skip with
      | S k => replace_scan old new k s'
      | O =>
          if String.prefix old s
          then new +:+ replace_scan old new (String.length old - 1) s'
          else String c (replace_scan old new 0 s')
      end
  end.

(** [s.replace(old, new)]: every non-overlapping occurrence, left to right. *)
Definition replace (old new s : string) : string :=
  if is_empty old then intersperse_all new s else replace_scan old new 0 s.

(** The first alternative of [alts] that matches at the start of [s]. *)
Definition match_alt (alts : list string) (s : string) : option string :=
  List.find (fun k => negb (is_empty k) && String.prefix k s) alts.

(** A regular expression that is an alternation of non-empty literals
    ([k1|k2|...]) cuts a text into matches and unmatched characters: at the
    leftmost position where some alternative matches, the first such
    alternative is taken, and the scan goes on after the match. *)
Inductive piece : Type :=
| Matched (k : string)
| Other (c : ascii).

Fixpoint re_scan (alts : list string) (skip : nat) (s : string) : list piece :=
  match s with
  | EmptyString => []
  | String c s' =>
      match skip with
      | S k => re_scan alts k s'
      | O =>
          match match_alt alts s with
          | Some k => Matched k :: re_scan alts (String.length k - 1) s'
          | None => Other c :: re_scan alts 0 s'
          end
      end
  end.

(** [re.sub(pattern, repl, s)] with a callable [repl], which receives the
    matched text and may raise. *)
Definition re_sub_call (alts : list string) (repl : string -> result string)
    (s : string) : result string :=
  foldr (fun p acc =>
           match p with
           | Matched k => v ← repl k; r ← acc; Ok (v +:+ r)
           | Other c => r ← acc; Ok (String c r)
           end)
        (Ok EmptyString) (re_scan alts 0 s).

(** [re.sub(pattern, new, s)] with a literal replacement string. *)
Definition re_sub (alts : list string) (new s : string) : string :=
  foldr (fun p acc =>
           match p with
           | Matched _ => new +:+ acc
           | Other c => String c acc
           end)
        EmptyString (re_scan alts 0 s).

(** [s in t] for strings. *)
Fixpoint contains (sub s : string) : bool :=
  String.prefix sub s ||
  match s with
  | EmptyString => false
  | String _ s' => contains sub s'
  end.

End Py.

(** ** Replacement tables: dictionaries as lists of entries *)

Definition table := list (string * string).

Fixpoint assoc (k : string) (t : table) : option string :=
  match t with
  | [] => None
  | (k', v) :: t' => if String.eqb k k' then Some v else assoc k t'
  end.

Definition keys (t : table) : list string := List.map fst t.

(** [d[k]] *)
Definition getitem (t : table) (k : string) : result string :=
  match assoc k t with
  | Some v => Ok v
  | None => Raise KeyError
  end.

(** ** The format-token translation helpers *)

(** The dictionaries of the helpers, their entries in insertion order. *)
Definition datetime_replacements : table :=
  [ ("%Y", "yyyy"); ("%y", "yy"); ("%m", "mm"); ("%d", "dd");
    ("%H", "hh"); ("%I", "HH"); ("%M", "ii"); ("%S", "ss") ].

Definition time_replacements : table :=
  [ ("%H", "hh"); ("%I", "HH"); ("%M", "ii"); ("%S", "ss") ].

Definition input_mask_replacements : table :=
  [ ("%Y", "y"); ("%y", "99"); ("%m", "m"); ("%d", "d");
    ("%H", "h"); ("%I", "h"); ("%M", "s"); ("%S", "s") ].

(** [for search, replace in replacements.items():
       converted = converted.replace(search, replace)] *)
Definition replace_all (replacements : table) (converted : string) : string :=
  fold_left (fun acc '(search, new) => Py.replace search new acc)
            replacements converted.

(** The helpers, with the dictionary gone through in insertion order. *)
Definition datetime_format_to_js_datetime_format (format : string) : string :=
  Py.strip (replace_all datetime_replacements format).

(** [format.split()[0]] raises [IndexError] when there is no word. *)
Definition datetime_format_to_js_date_format (format : string) : result string :=
  match Py.split format with
  | w :: _ => Ok (datetime_format_to_js_datetime_format w)
  | [] => Raise IndexError
  end.

(** [format.split()[1]], the [IndexError] being caught. *)
Definition datetime_format_to_js_time_format (format : string) : string :=
  let format :=
    match Py.split format with
    | _ :: w :: _ => w
    | _ => format
    end in
  Py.strip (replace_all time_replacements format).

(** For an empty dictionary the pattern is ["()"], which matches the empty
    string, and the look-up of [''] raises [KeyError]. *)
Definition multiple_replace (dict : table) (text : string) : result string :=
  match dict with
  | [] => Raise KeyError
  | _ :: _ => Py.re_sub_call (keys dict) (getitem dict) text
  end.

Definition datetime_format_to_js_input_mask (format : string) : result string :=
  r ← multiple_replace input_mask_replacements format;
  Ok (Py.strip r).

(** The same four functions with the order in which the interpreter goes
    through the dictionary as an argument: [replacements] lists the entries
    of the function's dictionary in the order of [replacements.items()] and
    of [dict.keys()]. *)
Definition datetime_format_to_js_datetime_format_in (replacements : table)
    (format : string) : string :=
  Py.strip (replace_all replacements format).

Definition datetime_format_to_js_date_format_in (replacements : table)
    (format : string) : result string :=
  match Py.split format with
  | w :: _ => Ok (datetime_format_to_js_datetime_format_in replacements w)
  | [] => Raise IndexError
  end.

Definition datetime_format_to_js_time_format_in (replacements : table)
    (format : string) : string :=
  let format :=
    match Py.split format with
    | _ :: w :: _ => w
    | _ => format
    end in
  Py.strip (replace_all replacements format).

Definition datetime_format_to_js_input_mask_in (replacements : table)
    (format : string) : result string :=
  r ← multiple_replace replacements format;
  Ok (Py.strip r).

(** ** Python values, attribute dictionaries and the object heap *)

(** The scalar values that reach the widgets. *)
Inductive value : Type :=
| VNone
| VBool (b : bool)
| VInt (z : Z)
| VStr (s : string).

#[global] Instance value_eq_dec : EqDecision value.
Proof. solve_decision. Defined.

(** [bool(v)] *)
Definition truth (v : value) : bool :=
  match v with
  | VNone => false
  | VBool b => b
  | VInt z => negb (z =? 0)%Z
  | VStr s => Py.truthy s
  end.

(** [six.text_type(v)] *)
Definition text_type (v : value) : string :=
  match v with
  | VNone => "None"
  | VBool true => "True"
  | VBool false => "False"
  | VInt z => NilZero.string_of_int (Z.to_int z)
  | VStr s => s
  end.

(** [force_text(v)] agrees with [six.text_type] on these values. *)
Definition force_text (v : value) : string := text_type v.

(** [a or b] *)
Definition py_or (a b : value) : value := if truth a then a else b.

Abbreviation dict := (gmap string value).
Abbreviation loc := positive.
Abbreviation heap := (gmap loc dict).

(** A new dictionary object holding [d]. *)
Definition alloc (d : dict) (h : heap) : loc * heap :=
  let l := fresh (dom h) in (l, <[l := d]> h).

(** [d.setdefault(k, v)] *)
Definition setdefault (k : string) (v : value) (d : dict) : dict :=
  match d !! k with
  | Some _ => d
  | None => <[k := v]> d
  end.

(** ** Template contexts *)

(** The file objects that reach [ImageInput]: [None], a stored file (a
    [FieldFile]) or an upload held in memory; a file object is truthy when
    it has a name. *)
Inductive file_value : Type :=
| NoFile
| FieldFile (name : string)
| InMemoryUploadedFile (name : string).

(** [bool(value)] *)
Definition file_truth (f : file_value) : bool :=
  match f with
  | NoFile => false
  | FieldFile name => Py.truthy name
  | InMemoryUploadedFile name => Py.truthy name
  end.

(** [isinstance(value, InMemoryUploadedFile)] *)
Definition is_in_memory (f : file_value) : bool :=
  match f with
  | InMemoryUploadedFile _ => true
  | _ => false
  end.

(** An entry of the dictionary under [ctx['widget']]. *)
Inductive widget_entry : Type :=
| WVal (v : value)
| WAttrs (d : dict).

(** An entry of a template context. *)
Inductive ctx_entry : Type :=
| EVal (v : value)
| EFile (f : file_value)
| EAttrs (d : dict)
| EWidget (w : gmap string widget_entry).

Abbreviation context := (gmap string ctx_entry).

(** [ctx['widget']['attrs']['id']]: a missing key raises [KeyError],
    indexing something that is no dictionary [TypeError]. *)
Definition widget_attrs_id (ctx : context) : result value :=
  match ctx !! "widget" with
  | None => Raise KeyError
  | Some (EWidget w) =>
      match w !! "attrs" with
      | None => Raise KeyError
      | Some (WAttrs d) =>
          match d !! "id" with
          | None => Raise KeyError
          | Some v => Ok v
          end
      | Some (WVal _) => Raise TypeError
      end
  | Some (EAttrs d) =>
      match d !! "attrs" with
      | None => Raise KeyError
      | Some _ => Raise TypeError
      end
  | Some _ => Raise TypeError
  end.

(** ** Framework base classes *)

(** [django.forms.Widget]: the constructor keeps a copy of [attrs]. *)
Module Widget.
(** [__init__(self, attrs=None)]: [self.attrs = {} if attrs is None else attrs.copy()] *)
Definition init_attrs (attrs : option dict) : dict := default ∅ attrs.

(** [build_attrs(self, base_attrs, extra_attrs=None)] *)
Definition build_attrs (base_attrs : dict) (extra_attrs : option dict) : dict :=
  match extra_attrs with
  | Some extra => extra ∪ base_attrs
  | None => base_attrs
  end.
End Widget.

(** [django.forms.Textarea.__init__]: default [cols] and [rows], overridden
    by a non-empty [attrs]. *)
Module Textarea.
Definition default_attrs : dict :=
  <["cols" := VStr "40"]> (<["rows" := VStr "10"]> ∅).

Definition init_attrs (attrs : option dict) : dict :=
  Widget.init_attrs (Some (default ∅ attrs ∪ default_attrs)).
End Textarea.

(** [django.forms.DateTimeBaseInput.__init__(self, attrs=None, format=None)]:
    [self.format = format if format else None]. *)
Module DateTimeBaseInput.
Definition init_format (format : option string) : option string :=
  match format with
  | Some f => if Py.truthy f then Some f else None
  | None => None
  end.
End DateTimeBaseInput.

(** ** ImageInput and WYSIWYGTextArea *)

Module ImageInput.
Record t : Type := { attrs : dict }.

(** [__init__(self, attrs=None)]; [attrs] is a reference to the caller's
    dictionary. *)
Definition init (attrs : option loc) (h : heap) : t * heap :=
  let '(l, h1) :=
    match attrs with
    | Some l => if bool_decide (h !!! l = (∅ : dict)) then alloc ∅ h else (l, h)
    | None => alloc ∅ h
    end in
  let h2 := <[l := <["accept" := VStr "image/*"]> (h1 !!! l)]> h1 in
  ({| attrs := Widget.init_attrs (Some (h2 !!! l)) |}, h2).

Section get_context.
(** [FileInput.get_context], the method of the base class. *)
Variable super_get_context :
  t -> string -> file_value -> option dict -> result context.

(** [get_context(self, name, value, attrs)] *)
Definition get_context (self : t) (name : string) (value : file_value)
    (attrs : option dict) : result context :=
  ctx ← super_get_context self name value attrs;
  let ctx1 := <["image_url" := EVal (VStr "")]> ctx in
  let ctx2 :=
    if file_truth value && negb (is_in_memory value)
    then <["image_url" := EFile value]> ctx1
    else ctx1 in
  id ← widget_attrs_id ctx2;
  Ok (<["image_id" := EVal (VStr (text_type id +:+ "-image"))]> ctx2).
End get_context.
End ImageInput.

Module WYSIWYGTextArea.
Record t : Type := { attrs : dict }.

(** [__init__(self, *args, **kwargs)]: [kw_attrs] is [kwargs.get('attrs')]
    when the key is there ([Some None] for an explicit [attrs=None]). *)
Definition init (kw_attrs : option (option loc)) (h : heap) : result t * heap :=
  let '(a, h1) :=
    match kw_attrs with
    | Some a => (a, h)
    | None => let '(l, h') := alloc ∅ h in (Some l, h')
    end in
  match a with
  | None => (Raise AttributeError, h1)
  | Some l =>
      let h2 := <[l := setdefault "class" (VStr "") (h1 !!! l)]> h1 in
      match (h2 !!! l : dict) !! "class" with
      | Some (VStr c) =>
          let h3 := <[l := <["class" := VStr (c +:+ " wysiwyg")]> (h2 !!! l)]> h2 in
          (Ok {| attrs := Textarea.init_attrs (Some (h3 !!! l)) |}, h3)
      | _ => (Raise TypeError, h2)
      end
  end.
End WYSIWYGTextArea.

(** ** Date and time pickers *)

Module DateTimeWidgetMixin.
Record t : Type := {
  format_key : string;
  format : option string;
  attrs : dict;
}.

(** [self.format or formats.get_format(self.format_key)[0]]; [formats] is
    [django.utils.formats.get_format] for the active locale. *)
Definition get_format (formats : string -> list string) (self : t) : result string :=
  match format self with
  | Some f =>
      if Py.truthy f then Ok f
      else match formats (format_key self) with
           | f0 :: _ => Ok f0
           | [] => Raise IndexError
           end
  | None =>
      match formats (format_key self) with
      | f0 :: _ => Ok f0
      | [] => Raise IndexError
      end
  end.

Definition build_attrs (formats : string -> list string) (self : t)
    (base_attrs : dict) (extra_attrs : option dict) : result dict :=
  let attrs := Widget.build_attrs base_attrs extra_attrs in
  f ← get_format formats self;
  mask ← datetime_format_to_js_input_mask f;
  Ok (<["data-inputmask" := VStr ("'mask': '" +:+ mask +:+ "'")]> attrs).
End DateTimeWidgetMixin.

(** The pickers take the constructor of [forms.TimeInput], [forms.DateInput]
    and [forms.DateTimeInput], which is the one of [DateTimeBaseInput]. *)
Module TimePickerInput.
Definition format_key : string := "TIME_INPUT_FORMATS".

Definition init (attrs : option dict) (format : option string)
    : DateTimeWidgetMixin.t :=
  {| DateTimeWidgetMixin.format_key := format_key;
     DateTimeWidgetMixin.format := DateTimeBaseInput.init_format format;
     DateTimeWidgetMixin.attrs := Widget.init_attrs attrs |}.

Section get_context.
Variable formats : string -> list string.
(** [forms.TimeInput.get_context] *)
Variable super_get_context :
  DateTimeWidgetMixin.t -> string -> value -> option dict -> result context.

Definition get_context (self : DateTimeWidgetMixin.t) (name : string)
    (value : value) (attrs : option dict) : result context :=
  ctx ← super_get_context self name value attrs;
  f ← DateTimeWidgetMixin.get_format formats self;
  let div_attrs : dict :=
    <["data-oscarWidget" := VStr "time"]>
      (<["data-timeFormat" := VStr (datetime_format_to_js_time_format f)]> ∅) in
  Ok (<["icon_classes" := EVal (VStr "icon-time glyphicon-time")]>
        (<["div_attrs" := EAttrs div_attrs]> ctx)).
End get_context.
End TimePickerInput.

Module DatePickerInput.
Definition format_key : string := "DATE_INPUT_FORMATS".

Definition init (attrs : option dict) (format : option string)
    : DateTimeWidgetMixin.t :=
  {| DateTimeWidgetMixin.format_key := format_key;
     DateTimeWidgetMixin.format := DateTimeBaseInput.init_format format;
     DateTimeWidgetMixin.attrs := Widget.init_attrs attrs |}.

Section get_context.
Variable formats : string -> list string.
(** [forms.DateInput.get_context] *)
Variable super_get_context :
  DateTimeWidgetMixin.t -> string -> value -> option dict -> result context.

Definition get_context (self : DateTimeWidgetMixin.t) (name : string)
    (value : value) (attrs : option dict) : result context :=
  ctx ← super_get_context self name value attrs;
  f ← DateTimeWidgetMixin.get_format formats self;
  js ← datetime_format_to_js_date_format f;
  let div_attrs : dict :=
    <["data-oscarWidget" := VStr "date"]>
      (<["data-dateFormat" := VStr js]> ∅) in
  Ok (<["icon_classes" := EVal (VStr "icon-calendar glyphicon-calendar")]>
        (<["div_attrs" := EAttrs div_attrs]> ctx)).
End get_context.
End DatePickerInput.

Module DateTimePickerInput.
Definition format_key : string := "DATETIME_INPUT_FORMATS".

(** [re.sub(':?%S', '', s)]: the optional colon is greedy, so the pattern
    is the alternation [:%S|%S]. *)
Definition remove_seconds (s : string) : string :=
  Py.re_sub [":%S"; "%S"] "" s.

(** [__init__(self, *args, **kwargs)] with [include_seconds] popped from
    [kwargs] (default [False]) and [attrs], [format] passed on. *)
Definition init (attrs : option dict) (format : option string)
    (include_seconds : bool) : DateTimeWidgetMixin.t :=
  let self_format := DateTimeBaseInput.init_format format in
  {| DateTimeWidgetMixin.format_key := format_key;
     DateTimeWidgetMixin.attrs := Widget.init_attrs attrs;
     DateTimeWidgetMixin.format :=
       match self_format with
       | Some f =>
           if negb include_seconds && Py.truthy f
           then Some (remove_seconds f) else Some f
       | None => None
       end |}.

Section get_context.
Variable formats : string -> list string.
(** [forms.DateTimeInput.get_context] *)
Variable super_get_context :
  DateTimeWidgetMixin.t -> string -> value -> option dict -> result context.

Definition get_context (self : DateTimeWidgetMixin.t) (name : string)
    (value : value) (attrs : option dict) : result context :=
  ctx ← super_get_context self name value attrs;
  f ← DateTimeWidgetMixin.get_format formats self;
  let div_attrs : dict :=
    <["data-oscarWidget" := VStr "datetime"]>
      (<["data-datetimeFormat" := VStr (datetime_format_to_js_datetime_format f)]> ∅) in
  Ok (<["icon_classes" := EVal (VStr "icon-calendar glyphicon-calendar")]>
        (<["div_attrs" := EAttrs div_attrs]> ctx)).
End get_context.
End DateTimePickerInput.

(** ** AdvancedSelect *)

(** The option dictionary built by [Select.create_option]. *)
Record select_option : Type := {
  opt_name : string;
  opt_value : value;
  opt_label : string;
  opt_selected : bool;
  opt_index : string;
  opt_attrs : dict;
  opt_type : string;
  opt_template_name : string;
}.

Module AdvancedSelect.
Record t : Type := {
  attrs : dict;
  choices : list (value * string);
  disabled_values : gset string;
}.

(** [__init__(self, attrs=None, choices=(), disabled_values=())] *)
Definition init (attrs : option dict) (choices : list (value * string))
    (disabled : list value) : t :=
  {| attrs := Widget.init_attrs attrs;
     choices := choices;
     disabled_values := list_to_set (force_text <$> disabled) |}.

Section create_option.
(** [forms.Select.create_option], the method of the base class. *)
Variable Select_create_option :
  t -> string -> value -> string -> bool -> Z -> option Z -> option dict ->
  select_option.

Definition create_option (self : t) (name : string) (value : value)
    (label : string) (selected : bool) (index : Z) (subindex : option Z)
    (attrs : option dict) : select_option :=
  let option :=
    Select_create_option self name value label selected index subindex attrs in
  if bool_decide (force_text value ∈ disabled_values self)
  then {| opt_name := opt_name option;
          opt_value := opt_value option;
          opt_label := opt_label option;
          opt_selected := opt_selected option;
          opt_index := opt_index option;
          opt_attrs := <["disabled" := VBool true]> (opt_attrs option);
          opt_type := opt_type option;
          opt_template_name := opt_template_name option |}
  else option.
End create_option.
End AdvancedSelect.

(** ** Remote selects *)

Module RemoteSelect.
Record t : Type := {
  is_multiple : bool;
  lookup_url : string;
  is_required : bool;
  attrs : dict;
}.

(** [__init__(self, *args, **kwargs)]: [class_lookup_url] is the class
    attribute ([None] unless a subclass sets it), [kw_lookup_url] is
    [kwargs['lookup_url']] when the key is there. [is_multiple] is the
    class attribute of the class being constructed, [is_required] the
    default of [forms.Widget]. *)
Definition init (multiple : bool) (class_lookup_url : option string)
    (kw_lookup_url : option (option string)) (attrs : option dict) : result t :=
  let self_lookup_url :=
    match kw_lookup_url with
    | Some url => url
    | None => class_lookup_url
    end in
  match self_lookup_url with
  | None => Raise ValueError
  | Some url =>
      Ok {| is_multiple := multiple;
            lookup_url := url;
            is_required := false;
            attrs := Widget.init_attrs attrs |}
  end.

(** [six.text_type(value or '')] *)
Definition format_value (value : value) : string :=
  text_type (py_or value (VStr "")).

(** [value_from_datadict(self, data, files, name)]: [data] is the submitted
    form data, names to strings; [files] is not used. *)
Definition value_from_datadict (data : gmap string string) (name : string)
    : option string :=
  match data !! name with
  | None => None
  | Some value => Some (text_type (VStr value))
  end.

(** [value_from_datadict] on any dictionary of data, as a form bound to a
    plain [dict] hands over: [data.get(name, None)] is [None] for a missing
    name and for a name that holds [None]. *)
Definition value_from_any_datadict (data : gmap string value) (name : string)
    : option string :=
  match data !! name with
  | None => None
  | Some VNone => None
  | Some value => Some (text_type value)
  end.

(** The dictionary handed to [attrs.update]. *)
Definition update (self : t) (name formatted : string) (attrs : dict) : dict :=
  <["type" := VStr "hidden"]>
    (<["name" := VStr name]>
       (<["data-ajax-url" := VStr (lookup_url self)]>
          (<["data-multiple" := VStr (if is_multiple self then "multiple" else "")]>
             (<["value" := VStr formatted]>
                (<["data-required" := VStr (if is_required self then "required" else "")]>
                   attrs))))).

Section render.
(** [django.forms.utils.flatatt] *)
Variable flatatt : dict -> string.

(** [render(self, name, value, attrs=None, renderer=None)] after the
    dispatch of [self.format_value(value)], whose result is [formatted];
    [attrs] is a reference to the caller's dictionary, [copy.copy(attrs)] a
    new object. [mark_safe] does not change the text. *)
Definition render_with (self : t) (name formatted : string)
    (attrs : option loc) (h : heap) : string * heap :=
  let '(l, h1) :=
    alloc (match attrs with
           | None => ∅
           | Some a => h !!! a
           end) h in
  let h2 := <[l := update self name formatted (h1 !!! l)]> h1 in
  ("<input " +:+ flatatt (h2 !!! l) +:+ ">", h2).

Definition render (self : t) (name : string) (value : value)
    (attrs : option loc) (h : heap) : string * heap :=
  render_with self name (format_value value) attrs h.
End render.
End RemoteSelect.

Module MultipleRemoteSelect.
Definition is_multiple : bool := true.

(** [value] is a list of values or [None]. *)
Definition format_value (value : option (list value)) : string :=
  match value with
  | Some ((_ :: _) as l) => Py.join "," (text_type <$> filter (fun v => truth v = true) l)
  | _ => ""
  end.

Definition value_from_datadict (data : gmap string string) (name : string)
    : list string :=
  match data !! name with
  | None => []
  | Some value => filter (fun w => Py.truthy w = true) (Py.split_on "," value)
  end.

(** [value_from_datadict] on any dictionary of data: only a string has
    [split]. *)
Definition value_from_any_datadict (data : gmap string value) (name : string)
    : result (list string) :=
  match data !! name with
  | None => Ok []
  | Some VNone => Ok []
  | Some (VStr value) =>
      Ok (filter (fun w => Py.truthy w = true) (Py.split_on "," value))
  | Some _ => Raise AttributeError
  end.

(** The inherited [render], with this class's [format_value]. *)
Definition render (flatatt : dict -> string) (self : RemoteSelect.t)
    (name : string) (value : option (list value)) (attrs : option loc)
    (h : heap) : string * heap :=
  RemoteSelect.render_with flatatt self name (format_value value) attrs h.
End MultipleRemoteSelect.

(** ** Specification-level notions *)

(** Token-by-token translation, as the specification words it: the text is
    read left to right; a recognized token of the table becomes its
    client-side token, and a character at which no token starts is kept in
    place. *)
Inductive translates (tbl : table) : string -> string -> Prop :=
| translates_end : translates tbl "" ""
| translates_token k v s t :
    (k, v) ∈ tbl -> translates tbl s t -> translates tbl (k +:+ s) (v +:+ t)
| translates_other c s t :
    (forall k v, (k, v) ∈ tbl -> String.prefix k (String c s) = false) ->
    translates tbl s t -> translates tbl (String c s) (String c t).

(** A table is one-to-one when no two distinct keys share a value. *)
Definition one_to_one (tbl : table) : Prop :=
  forall k1 k2 v, (k1, v) ∈ tbl -> (k2, v) ∈ tbl -> k1 = k2.

(** Two distinct keys of a table collide when they share a value. *)
Definition collide (tbl : table) (k1 k2 : string) : Prop :=
  k1 <> k2 /\ exists v, (k1, v) ∈ tbl /\ (k2, v) ∈ tbl.

Definition nonempty_keys (tbl : table) : Prop :=
  forall k, k ∈ keys tbl -> Py.is_empty k = false.

(** A text starts with at most one key of the table, which has one value. *)
Definition unambiguous (tbl : table) : Prop :=
  forall k1 v1 k2 v2 s1 s2,
    (k1, v1) ∈ tbl -> (k2, v2) ∈ tbl -> k1 +:+ s1 = k2 +:+ s2 ->
    k1 = k2 /\ v1 = v2 /\ s1 = s2.

Definition comma_free (s : string) : bool := negb (Py.contains "," s).

(** Every character is white space (so is the empty string). *)
Fixpoint all_space (s : string) : bool :=
  match s with
  | EmptyString => true
  | String c s' => Py.isspace c && all_space s'
  end.

(** No character is white space. *)
Fixpoint no_space (s : string) : bool :=
  match s with
  | EmptyString => true
  | String c s' => negb (Py.isspace c) && no_space s'
  end.

(** The last character, if any. *)
Fixpoint last_char (s : string) : option ascii :=
  match s with
  | EmptyString => None
  | String c EmptyString => Some c
  | String _ s' => last_char s'
  end.

(** The text neither starts nor ends with white space. *)
Definition trimmed (s : string) : Prop :=
  match s with
  | EmptyString => True
  | String c _ =>
      Py.isspace c = false /\
      exists d, last_char s = Some d /\ Py.isspace d = false
  end.

(** The table of [re.sub(':?%S', '', s)]: both forms of the seconds token
    go to the empty string. *)
Definition seconds_removal : table := [ (":%S", ""); ("%S", "") ].

(** ** Tables of two-character tokens *)

(** Every key of the three tables is ["%"] followed by one character; a
    [ctable] lists that character with the replacement. *)
Definition ctable := list (ascii * string).

Definition pct (x : ascii) : string := String "%" (String x EmptyString).

Definition strtab (T : ctable) : table :=
  List.map (fun '(x, v) => (pct x, v)) T.

Fixpoint lookupc (x : ascii) (T : ctable) : option string :=
  match T with
  | [] => None
  | (y, v) :: T' => if Ascii.eqb x y then Some v else lookupc x T'
  end.

(** One pass over the text, replacing the tokens of [T]. *)
Fixpoint scan (T : ctable) (s : string) : string :=
  match s with
  | EmptyString => EmptyString
  | String c s' =>
      if Ascii.eqb c "%" then
        match s' with
        | String d s'' =>
            match lookupc d T with
            | Some v => v +:+ scan T s''
            | None => String c (scan T s')
            end
        | EmptyString => String c (scan T s')
        end
      else String c (scan T s')
  end.

Fixpoint no_pct (s : string) : bool :=
  match s with
  | EmptyString => true
  | String c s' => negb (Ascii.eqb c "%") && no_pct s'
  end.

Definition starts_token (T : ctable) (s : string) : bool :=
  match s with
  | EmptyString => false
  | String a _ => bool_decide (is_Some (lookupc a T))
  end.

(** A replacement [v] cascades into the later entries [T] when ["%"]
    followed by [v] starts one of their tokens. *)
Definition cascades (T : ctable) (v : string) : bool :=
  Py.is_empty v || starts_token T v.

Definition entry_ok (x : ascii) (v : string) (T : ctable) : bool :=
  negb (Ascii.eqb x "%") && bool_decide (lookupc x T = None) && no_pct v.

(** Keys are distinct and differ from ["%"], replacements hold no ["%"]. *)
Fixpoint table_ok (T : ctable) : bool :=
  match T with
  | [] => true
  | (x, v) :: T' => entry_ok x v T' && table_ok T'
  end.

(** No replacement cascades into an entry that is applied after it. *)
Fixpoint cascade_free (T : ctable) : bool :=
  match T with
  | [] => true
  | (x, v) :: T' => negb (cascades T' v) && cascade_free T'
  end.

Definition datetime_ctable : ctable :=
  [ ("Y"%char, "yyyy"); ("y"%char, "yy"); ("m"%char, "mm"); ("d"%char, "dd");
    ("H"%char, "hh"); ("I"%char, "HH"); ("M"%char, "ii"); ("S"%char, "ss") ].

Definition time_ctable : ctable :=
  [ ("H"%char, "hh"); ("I"%char, "HH"); ("M"%char, "ii"); ("S"%char, "ss") ].

Definition input_mask_ctable : ctable :=
  [ ("Y"%char, "y"); ("y"%char, "99"); ("m"%char, "m"); ("d"%char, "d");
    ("H"%char, "h"); ("I"%char, "h"); ("M"%char, "s"); ("S"%char, "s") ].

(** * Proofs *)

(** ** The primitives on examples *)

Example split_example :
  Py.split "  %d/%m/%Y   %H:%M " = ["%d/%m/%Y"; "%H:%M"] /\ Py.split "   " = [].
Proof. by vm_compute. Qed.

Example strip_example : Py.strip "  a b  " = "a b" /\ Py.strip "   " = "".
Proof. by vm_compute. Qed.

Example replace_example :
  Py.replace "aa" "b" "aaaaa" = "bba" /\ Py.replace "" "-" "abc" = "-a-b-c-".
Proof. by vm_compute. Qed.

Example split_on_example :
  Py.split_on "," "a,,b," = ["a"; ""; "b"; ""] /\ Py.split_on "," "" = [""].
Proof. by vm_compute. Qed.

Example join_example : Py.join "," ["a"; "b"; "c"] = "a,b,c" /\ Py.join "," [] = "".
Proof. by vm_compute. Qed.

Example re_sub_example :
  Py.re_sub [":%S"; "%S"] "" "%H:%M:%S" = "%H:%M" /\
  Py.re_sub [":%S"; "%S"] "" "%S:%%SS" = ":%S".
Proof. by vm_compute. Qed.

Example text_type_example :
  text_type (VInt (-120)) = "-120" /\ text_type (VInt 0) = "0" /\
  text_type (VBool true) = "True".
Proof. by vm_compute. Qed.

Example translation_examples :
  datetime_format_to_js_datetime_format "%Y-%m-%d %H:%M:%S" = "yyyy-mm-dd hh:ii:ss" /\
  datetime_format_to_js_date_format "%Y-%m-%d %H:%M:%S" = Ok "yyyy-mm-dd" /\
  datetime_format_to_js_time_format "%Y-%m-%d %H:%M:%S" = "hh:ii:ss" /\
  datetime_format_to_js_time_format "%I:%M" = "HH:ii" /\
  datetime_format_to_js_input_mask "%d/%m/%y %H:%M" = Ok "d/m/99 h:s".
Proof. by vm_compute. Qed.

(** ** Strings *)

Lemma string_ind2 (P : string -> Prop) :
  P "" ->
  (forall c, P (String c "")) ->
  (forall c d s, P s -> P (String d s) -> P (String c (String d s))) ->
  forall s, P s.
Proof.
  intros H0 H1 H2 s.
  assert (P s /\ forall c, P (String c s)) as [? _]; [|done].
  induction s as [|d s [IHs IHc]]; split; auto.
Qed.

Lemma prefix_nil (s : string) : String.prefix "" s = true.
Proof. by destruct s. Qed.

Lemma prefix_cons c k d s :
  String.prefix (String c k) (String d s) = Ascii.eqb c d && String.prefix k s.
Proof.
  simpl. destruct (ascii_dec c d) as [->|Hne].
  - by rewrite Ascii.eqb_refl.
  - by apply Ascii.eqb_neq in Hne as ->.
Qed.

#[local] Arguments String.prefix : simpl never.

Lemma prefix_app (k s : string) : String.prefix k (k +:+ s) = true.
Proof.
  induction k as [|c k IH]; [apply prefix_nil|].
  simpl String.append. by rewrite prefix_cons, Ascii.eqb_refl.
Qed.

Lemma prefix_split (k s : string) :
  String.prefix k s = true -> exists r, s = k +:+ r.
Proof.
  revert s. induction k as [|c k IH]; intros s H; [by exists s|].
  destruct s as [|d s]; [done|].
  rewrite prefix_cons in H. apply andb_true_iff in H as [Hc Hk].
  apply Ascii.eqb_eq in Hc as ->. destruct (IH _ Hk) as [r ->]. by exists r.
Qed.

Lemma string_length_ind (P : string -> Prop) :
  (forall s, (forall t, String.length t < String.length s -> P t) -> P s) ->
  forall s, P s.
Proof.
  intros H s. remember (String.length s) as n eqn:Hn.
  revert s Hn. induction (lt_wf n) as [n _ IH]; intros s ->.
  apply H. intros t Ht. by apply (IH (String.length t)).
Qed.

Lemma length_append (s t : string) :
  String.length (s +:+ t) = String.length s + String.length t.
Proof. induction s; simpl; lia. Qed.

(** ** The scan of a regular-expression alternation *)

Section re_scan.
Variable alts : list string.

Lemma match_alt_Some s k :
  Py.match_alt alts s = Some k ->
  k ∈ alts /\ Py.is_empty k = false /\ exists r, s = k +:+ r.
Proof.
  unfold Py.match_alt. intros H.
  apply find_some in H as [Hin Hk]. apply andb_true_iff in Hk as [He Hp].
  split; [by apply list_elem_of_In|].
  split; [by apply negb_true_iff|]. by apply prefix_split.
Qed.

Lemma match_alt_None s k :
  Py.match_alt alts s = None -> k ∈ alts -> Py.is_empty k = false ->
  String.prefix k s = false.
Proof.
  unfold Py.match_alt. intros H Hin He.
  apply list_elem_of_In in Hin.
  pose proof (find_none _ _ H _ Hin) as Hk. simpl in Hk.
  rewrite He in Hk. by destruct (String.prefix k s).
Qed.

Lemma re_scan_skip k r :
  Py.re_scan alts (String.length k) (k +:+ r) = Py.re_scan alts 0 r.
Proof. induction k as [|c k IH]; [done|]. simpl. apply IH. Qed.

Lemma re_scan_match s k :
  Py.match_alt alts s = Some k ->
  exists r, s = k +:+ r /\
    Py.re_scan alts 0 s = Py.Matched k :: Py.re_scan alts 0 r.
Proof.
  intros H. destruct (match_alt_Some _ _ H) as (_ & He & r & ->).
  exists r. split; [done|].
  destruct k as [|c k]; [done|]. simpl String.append in *.
  simpl Py.re_scan. rewrite H. simpl String.length.
  replace (S (String.length k) - 1) with (String.length k) by lia.
  by rewrite re_scan_skip.
Qed.

Lemma re_scan_other c s :
  Py.match_alt alts (String c s) = None ->
  Py.re_scan alts 0 (String c s) = Py.Other c :: Py.re_scan alts 0 s.
Proof. intros H. simpl. by rewrite H. Qed.
End re_scan.

Lemma is_empty_false_length k : Py.is_empty k = false -> 0 < String.length k.
Proof. destruct k; simpl; [done|lia]. Qed.

(** [d[k]] finds a value for every key of [d]. *)
Lemma getitem_key (tbl : table) k :
  k ∈ keys tbl -> exists v, getitem tbl k = Ok v /\ (k, v) ∈ tbl.
Proof.
  unfold getitem. induction tbl as [|[k' v'] tbl IH]; simpl.
  - intros H. by apply elem_of_nil in H.
  - intros H. destruct (String.eqb k k') eqn:E.
    + apply String.eqb_eq in E as ->. exists v'. split; [done|]. by left.
    + apply elem_of_cons in H as [->|H].
      * by rewrite String.eqb_refl in E.
      * destruct (IH H) as (v & Hv & Hin). exists v. split; [done|]. by right.
Qed.

Lemma elem_of_keys (tbl : table) k v : (k, v) ∈ tbl -> k ∈ keys tbl.
Proof.
  intros H. unfold keys. apply list_elem_of_In, in_map_iff.
  exists (k, v). split; [done|]. by apply list_elem_of_In.
Qed.

(** [multiple_replace] never raises, and its result is the token-by-token
    translation of the text. *)
Lemma multiple_replace_translates (tbl : table) :
  tbl <> [] -> nonempty_keys tbl ->
  forall text, exists t,
    multiple_replace tbl text = Ok t /\ translates tbl text t.
Proof.
  intros Hnil Hne.
  assert (forall text, multiple_replace tbl text
                       = Py.re_sub_call (keys tbl) (getitem tbl) text) as Hm.
  { intros text. by destruct tbl. }
  intros text. rewrite Hm. clear Hm Hnil. revert text.
  unfold Py.re_sub_call.
  induction text as [text IH] using string_length_ind.
  destruct text as [|c s].
  - exists "". split; [done|constructor].
  - destruct (Py.match_alt (keys tbl) (String c s)) as [k|] eqn:Hm.
    + destruct (match_alt_Some _ _ _ Hm) as (Hin & He & _).
      destruct (re_scan_match _ _ _ Hm) as (r & Hs & ->).
      destruct (getitem_key _ _ Hin) as (v & Hv & Hkv).
      destruct (IH r) as (t & Ht & Htr).
      { rewrite Hs, length_append. apply is_empty_false_length in He. lia. }
      exists (v +:+ t). simpl. rewrite Hv. simpl.
      rewrite Ht. simpl. split; [done|]. rewrite Hs. by constructor.
    + rewrite (re_scan_other _ _ _ Hm).
      destruct (IH s) as (t & Ht & Htr); [simpl; lia|].
      exists (String c t). simpl. rewrite Ht. simpl. split; [done|].
      constructor; [|done]. intros k v Hkv.
      apply (match_alt_None _ _ _ Hm); [by eapply elem_of_keys|].
      apply Hne. by eapply elem_of_keys.
Qed.

(** [re.sub] with a literal replacement is the translation by the table that
    sends every alternative to that replacement. *)
Lemma re_sub_translates (alts : list string) (new : string) :
  (forall k, k ∈ alts -> Py.is_empty k = false) ->
  forall s, translates ((fun k => (k, new)) <$> alts) s (Py.re_sub alts new s).
Proof.
  intros Hne. unfold Py.re_sub.
  induction s as [s IH] using string_length_ind.
  destruct s as [|c s]; [constructor|].
  destruct (Py.match_alt alts (String c s)) as [k|] eqn:Hm.
  - destruct (match_alt_Some _ _ _ Hm) as (Hin & He & _).
    destruct (re_scan_match _ _ _ Hm) as (r & Hs & ->).
    rewrite Hs. simpl. constructor.
    + apply list_elem_of_fmap. by exists k.
    + apply IH. rewrite Hs, length_append.
      apply is_empty_false_length in He. lia.
  - rewrite (re_scan_other _ _ _ Hm). simpl. constructor.
    + intros k v Hkv. apply list_elem_of_fmap in Hkv as (k' & [= -> ->] & Hin).
      apply (match_alt_None _ _ _ Hm); auto.
    + apply IH. simpl. lia.
Qed.

(** ** One-pass scans of two-character tokens *)

Lemma scan_other T c s : c <> "%"%char -> scan T (String c s) = String c (scan T s).
Proof. intros Hc. simpl. by apply Ascii.eqb_neq in Hc as ->. Qed.

Lemma scan_token T d v s :
  lookupc d T = Some v -> scan T (String "%" (String d s)) = v +:+ scan T s.
Proof. intros H. simpl. by rewrite H. Qed.

Lemma scan_pct_keep T s :
  starts_token T s = false -> scan T (String "%" s) = String "%" (scan T s).
Proof.
  destruct s as [|d s]; [done|]. unfold starts_token. intros H.
  apply bool_decide_eq_false in H.
  change (scan T (String "%" (String d s))) with
    (match lookupc d T with
     | Some v => v +:+ scan T s
     | None => String "%" (scan T (String d s))
     end).
  destruct (lookupc d T); [|done]. exfalso. by apply H.
Qed.

Lemma scan_no_pct T v s : no_pct v = true -> scan T (v +:+ s) = v +:+ scan T s.
Proof.
  induction v as [|c v IH]; [done|]. simpl no_pct. intros H.
  apply andb_true_iff in H as [Hc Hv]. apply negb_true_iff, Ascii.eqb_neq in Hc.
  simpl String.append. rewrite scan_other by done. by rewrite IH.
Qed.

(** [str.replace] of a two-character token is a one-entry scan. *)
Lemma replace_pct x v s : Py.replace (pct x) v s = scan [(x, v)] s.
Proof.
  unfold Py.replace. simpl Py.is_empty. cbv iota.
  induction s as [|c|c d s IH1 IH2] using string_ind2.
  - done.
  - unfold pct.
    change (Py.replace_scan (String "%" (String x "")) v 0 (String c ""))
      with (if String.prefix (String "%" (String x "")) (String c "")
            then v +:+ ""
            else String c "").
    rewrite prefix_cons. change (String.prefix (String x "") "") with false.
    rewrite andb_false_r. simpl. by destruct (Ascii.eqb c "%").
  - unfold pct in *.
    change (Py.replace_scan (String "%" (String x "")) v 0 (String c (String d s)))
      with (if String.prefix (String "%" (String x "")) (String c (String d s))
            then v +:+ Py.replace_scan (String "%" (String x "")) v 0 s
            else String c (Py.replace_scan (String "%" (String x "")) v 0 (String d s))).
    rewrite !prefix_cons, prefix_nil, andb_true_r.
    change (scan [(x, v)] (String c (String d s))) with
      (if Ascii.eqb c "%" then
         match (if Ascii.eqb d x then Some v else None) with
         | Some v' => v' +:+ scan [(x, v)] s
         | None => String c (scan [(x, v)] (String d s))
         end
       else String c (scan [(x, v)] (String d s))).
    rewrite (Ascii.eqb_sym "%" c), (Ascii.eqb_sym x d).
    destruct (Ascii.eqb c "%"), (Ascii.eqb d x); cbv beta iota delta [andb]; congruence.
Qed.

Lemma table_ok_no_pct_key T : table_ok T = true -> lookupc "%" T = None.
Proof.
  induction T as [|[x v] T IH]; [done|]. simpl. unfold entry_ok.
  intros H. apply andb_true_iff in H as [H HT].
  apply andb_true_iff in H as [H _]. apply andb_true_iff in H as [H _].
  apply negb_true_iff in H. rewrite Ascii.eqb_sym, H. auto.
Qed.

Lemma contains_tail sub c s :
  Py.contains sub (String c s) = false -> Py.contains sub s = false.
Proof.
  intros H. change (String.prefix sub (String c s) || Py.contains sub s = false) in H.
  by apply orb_false_iff in H as [_ ?].
Qed.

Lemma contains_head sub s :
  Py.contains sub s = false -> String.prefix sub s = false.
Proof.
  intros H. destruct s; simpl in H; by apply orb_false_iff in H as [? _].
Qed.

Lemma starts_token_None T d s :
  lookupc d T = None -> starts_token T (String d s) = false.
Proof.
  intros H. unfold starts_token. apply bool_decide_eq_false.
  rewrite H. by intros [? ?].
Qed.

(** Applying the replacement of [(x, v)] first and the entries of [T] in one
    pass afterwards is one pass with the whole table, unless [v] cascades
    and the text has ["%"] right before a token ["%x"]. *)
Lemma scan_fuse x v T u :
  entry_ok x v T = true ->
  lookupc "%" T = None ->
  (cascades T v = true -> Py.contains (String "%" (pct x)) u = false) ->
  scan T (scan [(x, v)] u) = scan ((x, v) :: T) u.
Proof.
  unfold entry_ok. intros Hok Hpct.
  apply andb_true_iff in Hok as [Hok Hv].
  apply andb_true_iff in Hok as [Hx HxT].
  apply negb_true_iff, Ascii.eqb_neq in Hx. apply bool_decide_eq_true in HxT.
  induction u as [|c|c d s IH1 IH2] using string_ind2; intros Hc.
  - done.
  - simpl. destruct (Ascii.eqb c "%") eqn:E; simpl; by rewrite E.
  - destruct (ascii_dec c "%") as [->|Hne].
    2:{ rewrite !(scan_other _ c) by done. f_equal. apply IH2.
        intros Hv'. by eapply contains_tail, Hc. }
    destruct (ascii_dec d x) as [->|Hdx].
    { rewrite (scan_token [(x, v)] x v), (scan_token ((x, v) :: T) x v);
        [|simpl; by rewrite Ascii.eqb_refl..].
      rewrite scan_no_pct by done. f_equal. apply IH1.
      intros Hv'. by eapply contains_tail, contains_tail, Hc. }
    assert (lookupc d [(x, v)] = None) as Hd1.
    { simpl. by apply Ascii.eqb_neq in Hdx as ->. }
    assert (lookupc d ((x, v) :: T) = lookupc d T) as Hd2.
    { simpl. by apply Ascii.eqb_neq in Hdx as ->. }
    destruct (ascii_dec d "%") as [->|Hdp].
    + (* a second ["%"]: the first one stays *)
      rewrite (scan_pct_keep [(x, v)]), (scan_pct_keep ((x, v) :: T)).
      2:{ apply starts_token_None. by rewrite Hd2. }
      2:{ by apply starts_token_None. }
      rewrite <- IH2 by (intros Hv'; by eapply contains_tail, Hc).
      apply scan_pct_keep.
      destruct s as [|e s]; [by apply starts_token_None|].
      destruct (ascii_dec e x) as [->|Hex].
      * rewrite (scan_token [(x, v)] x v) by (simpl; by rewrite Ascii.eqb_refl).
        destruct (cascades T v) eqn:Hcas.
        { specialize (Hc eq_refl). apply contains_head in Hc.
          unfold pct in Hc. rewrite !prefix_cons, !Ascii.eqb_refl in Hc.
          by rewrite prefix_nil in Hc. }
        unfold cascades in Hcas. apply orb_false_iff in Hcas as [He Hst].
        destruct v as [|a v]; [done|]. done.
      * rewrite scan_pct_keep; [by apply starts_token_None|].
        apply starts_token_None. simpl.
        by apply Ascii.eqb_neq in Hex as ->.
    + (* an ordinary character after ["%"] *)
      change (scan [(x, v)] (String "%" (String d s))) with
        (match lookupc d [(x, v)] with
         | Some v' => v' +:+ scan [(x, v)] s
         | None => String "%" (scan [(x, v)] (String d s))
         end).
      rewrite Hd1, (scan_other _ d) by done.
      change (scan ((x, v) :: T) (String "%" (String d s))) with
        (match lookupc d ((x, v) :: T) with
         | Some v' => v' +:+ scan ((x, v) :: T) s
         | None => String "%" (scan ((x, v) :: T) (String d s))
         end).
      change (scan T (String "%" (String d (scan [(x, v)] s)))) with
        (match lookupc d T with
         | Some v' => v' +:+ scan T (scan [(x, v)] s)
         | None => String "%" (scan T (String d (scan [(x, v)] s)))
         end).
      rewrite Hd2, !(scan_other _ d) by done.
      rewrite IH1 by (intros Hv'; by eapply contains_tail, contains_tail, Hc).
      done.
Qed.

Lemma scan_nil s : scan [] s = s.
Proof.
  induction s as [|c|c d s IH1 IH2] using string_ind2; [done| |].
  - simpl. by destruct (Ascii.eqb c "%").
  - change (scan [] (String c (String d s))) with
      (if Ascii.eqb c "%" then String c (scan [] (String d s))
       else String c (scan [] (String d s))).
    rewrite IH2. by destruct (Ascii.eqb c "%").
Qed.

Lemma replace_all_cons x v T s :
  replace_all (strtab ((x, v) :: T)) s = replace_all (strtab T) (scan [(x, v)] s).
Proof. unfold replace_all. simpl. by rewrite replace_pct. Qed.

(** The loop of replacements is one pass over the text when no replacement
    cascades into a later entry. *)
Lemma replace_all_scan T :
  table_ok T = true -> cascade_free T = true ->
  forall s, replace_all (strtab T) s = scan T s.
Proof.
  induction T as [|[x v] T IH]; intros Hok Hcf s.
  - by rewrite scan_nil.
  - simpl in Hok, Hcf.
    apply andb_true_iff in Hok as [He Hok].
    apply andb_true_iff in Hcf as [Hc Hcf].
    rewrite replace_all_cons, IH by done.
    apply scan_fuse; [done|by apply table_ok_no_pct_key|].
    intros Hv. apply negb_true_iff in Hc. congruence.
Qed.

(** The first replacement may cascade when the text never has ["%"] right
    before its token. *)
Lemma replace_all_scan_head x v T s :
  table_ok ((x, v) :: T) = true -> cascade_free T = true ->
  Py.contains (String "%" (pct x)) s = false ->
  replace_all (strtab ((x, v) :: T)) s = scan ((x, v) :: T) s.
Proof.
  intros Hok Hcf Hs. simpl in Hok. apply andb_true_iff in Hok as [He Hok].
  rewrite replace_all_cons, replace_all_scan by done.
  apply scan_fuse; [done|by apply table_ok_no_pct_key|done].
Qed.

Lemma lookupc_elem_of T d v : lookupc d T = Some v -> (pct d, v) ∈ strtab T.
Proof.
  induction T as [|[x w] T IH]; [done|]. simpl.
  destruct (Ascii.eqb d x) eqn:E.
  - apply Ascii.eqb_eq in E as ->. intros [= ->]. by left.
  - intros H. right. by apply IH.
Qed.

Lemma elem_of_strtab T k v :
  (k, v) ∈ strtab T -> exists x, k = pct x /\ is_Some (lookupc x T).
Proof.
  induction T as [|[x w] T IH]; simpl.
  - intros H. by apply elem_of_nil in H.
  - intros H. apply elem_of_cons in H as [[= -> ->]|H].
    + exists x. split; [done|]. by rewrite Ascii.eqb_refl.
    + destruct (IH H) as (y & -> & Hy). exists y. split; [done|].
      by destruct (Ascii.eqb y x).
Qed.

(** One pass with a table of two-character tokens is the token-by-token
    translation of the specification. *)
Lemma scan_translates T s : translates (strtab T) s (scan T s).
Proof.
  induction s as [|c|c d s IH1 IH2] using string_ind2.
  - constructor.
  - replace (scan T (String c "")) with (String c "")
      by (simpl; by destruct (Ascii.eqb c "%")).
    constructor; [|constructor].
    intros k v Hkv. apply elem_of_strtab in Hkv as (x & -> & _).
    unfold pct. rewrite prefix_cons. by rewrite andb_false_r.
  - destruct (ascii_dec c "%") as [->|Hne].
    + destruct (lookupc d T) as [v|] eqn:Hd.
      * rewrite (scan_token _ _ _ _ Hd).
        apply (translates_token _ (pct d) v); [by apply lookupc_elem_of|done].
      * rewrite scan_pct_keep by (by apply starts_token_None).
        constructor; [|done].
        intros k v Hkv. apply elem_of_strtab in Hkv as (x & -> & Hx).
        unfold pct. rewrite !prefix_cons.
        destruct (Ascii.eqb x d) eqn:E; [|by rewrite andb_false_r].
        apply Ascii.eqb_eq in E as ->. rewrite Hd in Hx. by destruct Hx.
    + rewrite scan_other by done. constructor; [|done].
      intros k v Hkv. apply elem_of_strtab in Hkv as (x & -> & _).
      unfold pct. rewrite prefix_cons.
      apply not_eq_sym, Ascii.eqb_neq in Hne. by rewrite Hne.
Qed.

Lemma datetime_replacements_strtab : datetime_replacements = strtab datetime_ctable.
Proof. reflexivity. Qed.

Lemma time_replacements_strtab : time_replacements = strtab time_ctable.
Proof. reflexivity. Qed.

(** The loop of [datetime_format_to_js_datetime_format] on a text without
    ["%%Y"]. *)
Lemma replace_all_datetime s :
  Py.contains "%%Y" s = false ->
  translates datetime_replacements s (replace_all datetime_replacements s).
Proof.
  intros Hs. rewrite datetime_replacements_strtab at 2.
  unfold datetime_ctable. rewrite replace_all_scan_head by done.
  rewrite datetime_replacements_strtab. apply scan_translates.
Qed.

(** The loop of [datetime_format_to_js_time_format]. *)
Lemma replace_all_time s :
  translates time_replacements s (replace_all time_replacements s).
Proof.
  rewrite time_replacements_strtab at 2.
  rewrite replace_all_scan by done.
  rewrite time_replacements_strtab. apply scan_translates.
Qed.

Lemma elem_of_strtab_lookupc T x v :
  table_ok T = true -> (pct x, v) ∈ strtab T -> lookupc x T = Some v.
Proof.
  induction T as [|[y w] T IH]; simpl.
  - intros _ H. by apply elem_of_nil in H.
  - intros Hok H. apply andb_true_iff in Hok as [He Hok].
    apply elem_of_cons in H as [[= -> ->]|H].
    + by rewrite Ascii.eqb_refl.
    + destruct (Ascii.eqb x y) eqn:E; [|by apply IH].
      apply Ascii.eqb_eq in E as ->. unfold entry_ok in He.
      rewrite (IH Hok H), bool_decide_eq_false_2 in He by done.
      by rewrite andb_false_r in He.
Qed.

Ltac table_cases H :=
  apply list_elem_of_In in H; simpl in H; destruct_or!; simplify_eq.

(** The translation of a text is unique when the table is unambiguous. *)
Lemma translates_det (tbl : table) :
  nonempty_keys tbl -> unambiguous tbl ->
  forall s t1 t2, translates tbl s t1 -> translates tbl s t2 -> t1 = t2.
Proof.
  intros Hne Hun s t1 t2 H1. revert t2.
  assert (forall k v r, (k, v) ∈ tbl -> k +:+ r <> "") as Hnil.
  { intros k v r Hkv. pose proof (Hne k (elem_of_keys _ _ _ Hkv)).
    by destruct k. }
  induction H1 as [|k v s t Hkv H1 IH|c s t Hno H1 IH]; intros t2 H2.
  - inversion H2 as [|k v s t Hkv _ Hs|]; [done|].
    destruct (Hnil _ _ _ Hkv Hs).
  - inversion H2 as [|k' v' s' t' Hkv' H2' Hs|c s' t' Hno' H2' Hs].
    + destruct (Hnil _ _ _ Hkv (eq_sym H)).
    + destruct (Hun _ _ _ _ _ _ Hkv' Hkv Hs) as (-> & -> & ->).
      f_equal. by apply IH.
    + specialize (Hno' _ _ Hkv). by rewrite Hs, prefix_app in Hno'.
  - inversion H2 as [|k' v' s' t' Hkv' H2' Hs|c' s' t' Hno' H2' Hs].
    + specialize (Hno _ _ Hkv'). rewrite <- Hs, prefix_app in Hno. done.
    + f_equal. by apply IH.
Qed.

Lemma strtab_nonempty_keys T : nonempty_keys (strtab T).
Proof.
  intros k Hk. apply list_elem_of_In, in_map_iff in Hk as ([k' v] & <- & Hin).
  apply list_elem_of_In, elem_of_strtab in Hin as (x & -> & _). done.
Qed.

Lemma strtab_unambiguous T : table_ok T = true -> unambiguous (strtab T).
Proof.
  intros Hok k1 v1 k2 v2 s1 s2 H1 H2 Hs.
  destruct (elem_of_strtab _ _ _ H1) as (x1 & -> & _).
  destruct (elem_of_strtab _ _ _ H2) as (x2 & -> & _).
  unfold pct in Hs. simpl in Hs. simplify_eq.
  apply (elem_of_strtab_lookupc _ _ _ Hok) in H1, H2.
  split; [done|]. split; congruence.
Qed.

Lemma seconds_removal_unambiguous : unambiguous seconds_removal.
Proof.
  intros k1 v1 k2 v2 s1 s2 H1 H2 Hs. unfold seconds_removal in *.
  table_cases H1; table_cases H2; by simplify_eq/=.
Qed.

(** So the translation by a table of two-character tokens is the one-pass
    scan, and nothing else. *)
Lemma translates_scan T s t :
  table_ok T = true -> translates (strtab T) s t -> t = scan T s.
Proof.
  intros Hok H. eapply translates_det;
    [apply strtab_nonempty_keys|by apply strtab_unambiguous
    |done|apply scan_translates].
Qed.

Lemma not_translates T s t :
  table_ok T = true -> scan T s <> t -> ~ translates (strtab T) s t.
Proof.
  intros Hok Hne H. apply Hne. symmetry. by apply translates_scan.
Qed.

Lemma input_mask_keys_nonempty : nonempty_keys input_mask_replacements.
Proof.
  intros k Hk. unfold keys, input_mask_replacements in Hk. simpl in Hk.
  repeat (apply elem_of_cons in Hk as [->|Hk]; [done|]).
  by apply elem_of_nil in Hk.
Qed.

(** ** The format-token translation functions *)

(** The input mask is the stripped translation of the whole format. *)
Lemma input_mask_translates format :
  exists t, translates input_mask_replacements format t /\
    datetime_format_to_js_input_mask format = Ok (Py.strip t).
Proof.
  destruct (multiple_replace_translates input_mask_replacements
              ltac:(done) input_mask_keys_nonempty format)
    as (t & Ht & Htr).
  exists t. split; [done|].
  unfold datetime_format_to_js_input_mask. by rewrite Ht.
Qed.

Lemma input_mask_replacements_strtab :
  input_mask_replacements = strtab input_mask_ctable.
Proof. reflexivity. Qed.

(** The input mask, computed in one pass. *)
Lemma input_mask_scan format :
  datetime_format_to_js_input_mask format
  = Ok (Py.strip (scan input_mask_ctable format)).
Proof.
  destruct (input_mask_translates format) as (t & Ht & ->).
  rewrite input_mask_replacements_strtab in Ht.
  by rewrite (translates_scan input_mask_ctable format t eq_refl Ht).
Qed.

Lemma input_mask_returns format : returns (datetime_format_to_js_input_mask format).
Proof.
  destruct (input_mask_translates format) as (t & _ & Ht).
  by exists (Py.strip t).
Qed.

(** When the dictionary is gone through in insertion order, each function
    translates the part of the format it selects and strips the white space
    around the result: the input mask and the datetime format take the
    whole format, the date format its first word, the time format its
    second word when there are two, the whole format otherwise. In this
    order the datetime table needs a part in which ["%"] never stands right
    before the token ["%Y"], and the time table needs nothing. *)
Lemma translation_in_insertion_order (format : string) :
  (exists t, translates input_mask_replacements format t /\
     datetime_format_to_js_input_mask format = Ok (Py.strip t)) /\
  (Py.contains "%%Y" format = false ->
   exists t, translates datetime_replacements format t /\
     datetime_format_to_js_datetime_format format = Py.strip t) /\
  (forall w ws, Py.split format = w :: ws ->
   Py.contains "%%Y" w = false ->
   exists t, translates datetime_replacements w t /\
     datetime_format_to_js_date_format format = Ok (Py.strip t)) /\
  (forall w0 w ws, Py.split format = w0 :: w :: ws ->
   exists t, translates time_replacements w t /\
     datetime_format_to_js_time_format format = Py.strip t) /\
  (length (Py.split format) < 2 ->
   exists t, translates time_replacements format t /\
     datetime_format_to_js_time_format format = Py.strip t).
Proof.
  repeat split.
  - apply input_mask_translates.
  - intros Hs. eexists. split; [by apply replace_all_datetime|done].
  - intros w ws Hw Hs. eexists. split; [by apply replace_all_datetime|].
    unfold datetime_format_to_js_date_format. by rewrite Hw.
  - intros w0 w ws Hw. eexists. split; [apply replace_all_time|].
    unfold datetime_format_to_js_time_format. by rewrite Hw.
  - intros Hlen. eexists. split; [apply replace_all_time|].
    unfold datetime_format_to_js_time_format.
    destruct (Py.split format) as [|w0 [|w ws]]; [done|done|simpl in Hlen; lia].
Qed.

Example translation_in_insertion_order_example :
  Py.contains "%%Y" "%d/%m/%Y %H:%M" = false /\
  (exists t, translates datetime_replacements "%d/%m/%Y %H:%M" t /\
     datetime_format_to_js_datetime_format "%d/%m/%Y %H:%M" = Py.strip t) /\
  (exists t, translates datetime_replacements "%d/%m/%Y" t /\
     datetime_format_to_js_date_format "%d/%m/%Y %H:%M" = Ok (Py.strip t)) /\
  (exists t, translates time_replacements "%H:%M" t /\
     datetime_format_to_js_time_format "%d/%m/%Y %H:%M" = Py.strip t).
Proof.
  destruct (translation_in_insertion_order "%d/%m/%Y %H:%M")
    as (_ & Hdt & Hd & Ht & _).
  split; [reflexivity|].
  split; [apply Hdt; reflexivity|].
  split; [apply (Hd "%d/%m/%Y" ["%H:%M"]); reflexivity|].
  apply (Ht "%d/%m/%Y" "%H:%M" []); reflexivity.
Qed.

(** C1, as stated, fails: the leading blank of [" %Y"] is not kept, and the
    date format drops everything after the first word, tokens included.
    Neither format holds ["%%"], so the order of the dictionary plays no
    part in the two results. *)
Lemma translation_in_place_counterexample :
  ~ translates datetime_replacements " %Y"
      (datetime_format_to_js_datetime_format " %Y") /\
  ~ (exists t, translates datetime_replacements "%d %H" t /\
       datetime_format_to_js_date_format "%d %H" = Ok t).
Proof.
  split.
  - rewrite datetime_replacements_strtab. by apply not_translates.
  - intros (t & Ht & Hd). revert Ht. rewrite datetime_replacements_strtab.
    apply not_translates; [done|].
    vm_compute in Hd. injection Hd as <-. by vm_compute.
Qed.

(** The loop of replacements does cascade on ["%%Y"]: the ["%"] left in front
    of the new ["yyyy"] is read as the token ["%y"] by the next entry. *)
Example datetime_format_cascade :
  datetime_format_to_js_datetime_format "%%Y" = "yyyyy" /\
  scan datetime_ctable "%%Y" = "%yyyy".
Proof. by vm_compute. Qed.

(** On ["%%Y"] the result is not the translation of the format. *)
Lemma datetime_format_cascade_not_translation :
  ~ translates datetime_replacements "%%Y"
      (datetime_format_to_js_datetime_format "%%Y").
Proof. rewrite datetime_replacements_strtab. by apply not_translates. Qed.

Lemma split_nil_lstrip s : Py.split s = [] <-> Py.lstrip s = "".
Proof.
  induction s as [|c s IH]; [done|]. simpl.
  destruct (Py.isspace c); [done|].
  split; [|done]. destruct (Py.starts_word s); [|done].
  by destruct (Py.split s).
Qed.

(** [datetime_format_to_js_date_format] returns exactly on the formats that
    hold a character other than white space. *)
Lemma date_format_returns_iff format :
  returns (datetime_format_to_js_date_format format) <-> Py.lstrip format <> "".
Proof.
  rewrite <- split_nil_lstrip. unfold datetime_format_to_js_date_format, returns.
  destruct (Py.split format); split; try done.
  - by intros [? ?].
  - intros _. by eexists.
Qed.

(** C2. The date format raises [IndexError] on the empty format and on a
    blank one, where the time format, which catches the same error, returns
    the empty string. *)
Theorem date_format_raises_on_blank :
  datetime_format_to_js_date_format "" = Raise IndexError /\
  datetime_format_to_js_date_format " " = Raise IndexError /\
  datetime_format_to_js_time_format "" = "" /\
  datetime_format_to_js_time_format " " = "".
Proof. by vm_compute. Qed.

(** ** The replacement tables *)

Lemma datetime_replacements_one_to_one : one_to_one datetime_replacements.
Proof.
  intros k1 k2 v H1 H2. unfold datetime_replacements in *.
  table_cases H1; table_cases H2; done.
Qed.

Lemma time_replacements_one_to_one : one_to_one time_replacements.
Proof.
  intros k1 k2 v H1 H2. unfold time_replacements in *.
  table_cases H1; table_cases H2; done.
Qed.

(** C5, as amended. The tables of the datetime and of the time format are
    one-to-one. In the table of the input mask two distinct codes share a
    token exactly when they are ["%H"] and ["%I"] (both ["h"]) or ["%M"] and
    ["%S"] (both ["s"]). *)
Theorem tables_one_to_one_but_input_mask :
  one_to_one datetime_replacements /\
  one_to_one time_replacements /\
  forall k1 k2,
    collide input_mask_replacements k1 k2 <->
    (k1 = "%H" /\ k2 = "%I") \/ (k1 = "%I" /\ k2 = "%H") \/
    (k1 = "%M" /\ k2 = "%S") \/ (k1 = "%S" /\ k2 = "%M").
Proof.
  split; [apply datetime_replacements_one_to_one|].
  split; [apply time_replacements_one_to_one|].
  intros k1 k2. unfold collide, input_mask_replacements. split.
  - intros (Hne & v & H1 & H2).
    table_cases H1; table_cases H2; tauto.
  - intros [[-> ->]|[[-> ->]|[[-> ->]|[-> ->]]]];
      (split; [done|]); [exists "h"|exists "h"|exists "s"|exists "s"];
      split; apply list_elem_of_In; simpl; tauto.
Qed.

Lemma tables_one_to_one_but_input_mask_witness :
  collide input_mask_replacements "%M" "%S".
Proof.
  destruct tables_one_to_one_but_input_mask as (_ & _ & H).
  apply (H "%M" "%S"). right. right. left. done.
Defined.

(** C5, as stated, fails for the input mask: ["%H"] and ["%I"] both map to
    ["h"]. *)
Lemma input_mask_not_one_to_one : ~ one_to_one input_mask_replacements.
Proof.
  intros H. specialize (H "%H" "%I" "h").
  unfold input_mask_replacements in H.
  assert ("%H" = "%I") as Heq; [|done].
  apply H; apply list_elem_of_In; simpl; tauto.
Qed.

(** ** Comma-separated lists *)

Lemma comma_free_cons c s :
  comma_free (String c s) = negb (Ascii.eqb c ",") && comma_free s.
Proof.
  unfold comma_free.
  change (Py.contains "," (String c s)) with
    (String.prefix "," (String c s) || Py.contains "," s).
  rewrite prefix_cons, prefix_nil, andb_true_r, negb_orb.
  by rewrite (Ascii.eqb_sym "," c).
Qed.

Lemma split_on_nonempty sep s : Py.split_on sep s <> [].
Proof.
  destruct s as [|c s]; [done|]. simpl.
  by destruct (Ascii.eqb c sep), (Py.split_on sep s).
Qed.

Lemma split_on_comma_free w :
  comma_free w = true -> Py.split_on "," w = [w].
Proof.
  induction w as [|c w IH]; [done|]. rewrite comma_free_cons.
  intros H. apply andb_true_iff in H as [Hc Hw]. apply negb_true_iff in Hc.
  simpl. by rewrite Hc, IH.
Qed.

Lemma split_on_app w rest :
  comma_free w = true ->
  Py.split_on "," (w +:+ String "," rest) = w :: Py.split_on "," rest.
Proof.
  induction w as [|c w IH]; [done|]. rewrite comma_free_cons.
  intros H. apply andb_true_iff in H as [Hc Hw]. apply negb_true_iff in Hc.
  simpl. by rewrite Hc, IH.
Qed.

(** Splitting inverts joining, for a non-empty list of comma-free words. *)
Lemma split_on_join ws :
  ws <> [] -> Forall (fun w => comma_free w = true) ws ->
  Py.split_on "," (Py.join "," ws) = ws.
Proof.
  induction ws as [|w ws IH]; [done|]. intros _ Hws.
  apply Forall_cons in Hws as [Hw Hws].
  destruct ws as [|w' ws]; [by apply split_on_comma_free|].
  change (Py.join "," (w :: w' :: ws))
    with (w +:+ String "," (Py.join "," (w' :: ws))).
  rewrite split_on_app by done. f_equal. by apply IH.
Qed.

(** Joining inverts splitting, and no segment holds a comma. *)
Lemma join_split_on s :
  Py.join "," (Py.split_on "," s) = s /\
  Forall (fun w => comma_free w = true) (Py.split_on "," s).
Proof.
  induction s as [|c s [IHj IHf]]; [by repeat constructor|].
  simpl. destruct (Ascii.eqb c ",") eqn:Hc.
  - apply Ascii.eqb_eq in Hc as ->. split.
    + destruct (Py.split_on "," s) as [|w ws] eqn:E.
      * by apply split_on_nonempty in E.
      * change (Py.join "," ("" :: w :: ws)) with ("" +:+ "," +:+ Py.join "," (w :: ws)).
        by rewrite IHj.
    + by constructor.
  - destruct (Py.split_on "," s) as [|w ws] eqn:E.
    + by apply split_on_nonempty in E.
    + apply Forall_cons in IHf as [Hw Hws]. split.
      * rewrite <- IHj. by destruct ws.
      * constructor; [|done]. by rewrite comma_free_cons, Hc.
Qed.

Lemma text_type_truthy v : truth v = true -> Py.truthy (text_type v) = true.
Proof.
  destruct v as [|[]|z|s]; try done. intros _. simpl.
  unfold NilZero.string_of_int.
  destruct (Z.to_int z) as [d|d]; [|done].
  unfold NilZero.string_of_uint. by destruct d.
Qed.

(** ** Remote selects: values *)

Lemma filter_truthy_all (ws : list string) :
  Forall (fun w => Py.truthy w = true) ws ->
  filter (fun w => Py.truthy w = true) ws = ws.
Proof.
  induction 1 as [|w ws Hw _ IH]; [done|].
  rewrite filter_cons_True by done. by rewrite IH.
Qed.

(** C3, as amended. Parsing the string that [format_value] makes of a list
    gives back the string forms of the truthy entries, in order, provided
    none of those string forms holds a comma. *)
Theorem multiple_round_trip (data : gmap string string) (name : string)
    (l : list value) :
  (forall v, v ∈ l -> truth v = true -> comma_free (text_type v) = true) ->
  MultipleRemoteSelect.value_from_datadict
    (<[name := MultipleRemoteSelect.format_value (Some l)]> data) name
  = text_type <$> filter (fun v => truth v = true) l.
Proof.
  intros Hl. unfold MultipleRemoteSelect.value_from_datadict.
  rewrite lookup_insert_eq.
  set (ws := text_type <$> filter (fun v => truth v = true) l).
  assert (MultipleRemoteSelect.format_value (Some l) = Py.join "," ws) as ->.
  { unfold ws. by destruct l. }
  assert (Forall (fun w => comma_free w = true) ws) as Hcf.
  { apply Forall_fmap, Forall_forall. intros v Hv.
    apply list_elem_of_filter in Hv as [Ht Hv]. by apply Hl. }
  assert (Forall (fun w => Py.truthy w = true) ws) as Hne.
  { apply Forall_fmap, Forall_forall. intros v Hv.
    apply list_elem_of_filter in Hv as [Ht Hv]. by apply text_type_truthy. }
  destruct (decide (ws = [])) as [->|Hws]; [done|].
  rewrite split_on_join by done. by apply filter_truthy_all.
Qed.

Lemma multiple_round_trip_witness :
  MultipleRemoteSelect.value_from_datadict
    (<["products" := MultipleRemoteSelect.format_value
         (Some [VInt 12; VStr ""; VStr "sku-7"; VNone; VInt 0; VBool true])]> ∅)
    "products"
  = ["12"; "sku-7"; "True"].
Proof.
  apply (multiple_round_trip ∅ "products"
           [VInt 12; VStr ""; VStr "sku-7"; VNone; VInt 0; VBool true]).
  intros v Hv _. apply list_elem_of_In in Hv. simpl in Hv.
  destruct_or!; subst; reflexivity || contradiction.
Defined.

(** C3, as stated, fails: an entry with a comma comes back as two. *)
Lemma multiple_round_trip_counterexample :
  MultipleRemoteSelect.value_from_datadict
    (<["x" := MultipleRemoteSelect.format_value (Some [VStr "a,b"])]> ∅) "x"
  <> text_type <$> filter (fun v => truth v = true) [VStr "a,b"].
Proof. by vm_compute. Qed.

Example multiple_round_trip_splits_entry :
  MultipleRemoteSelect.value_from_datadict
    (<["x" := MultipleRemoteSelect.format_value (Some [VStr "a,b"])]> ∅) "x"
  = ["a"; "b"].
Proof. by vm_compute. Qed.


(** On submitted data that holds strings only, as a [QueryDict] does,
    [value_from_datadict] is the function on any data. *)
Lemma value_from_datadict_strings (data : gmap string string) (name : string) :
  RemoteSelect.value_from_any_datadict (VStr <$> data) name
  = RemoteSelect.value_from_datadict data name /\
  MultipleRemoteSelect.value_from_any_datadict (VStr <$> data) name
  = Ok (MultipleRemoteSelect.value_from_datadict data name).
Proof.
  unfold RemoteSelect.value_from_any_datadict, RemoteSelect.value_from_datadict,
    MultipleRemoteSelect.value_from_any_datadict,
    MultipleRemoteSelect.value_from_datadict.
  rewrite lookup_fmap. by destruct (data !! name).
Qed.




(** C4, as amended. Without a lookup URL, neither on the class nor in the
    keyword arguments, the constructor raises [ValueError]; with a URL in
    the keyword arguments, or on the class and no [lookup_url] keyword
    argument, it returns a widget that holds this URL. An explicit
    [lookup_url=None] overrides the class attribute and raises. *)
Theorem remote_select_requires_lookup_url (multiple : bool)
    (attrs : option dict) :
  RemoteSelect.init multiple None None attrs = Raise ValueError /\
  (forall class_url url, exists self,
     RemoteSelect.init multiple class_url (Some (Some url)) attrs = Ok self /\
     RemoteSelect.lookup_url self = url) /\
  (forall url, exists self,
     RemoteSelect.init multiple (Some url) None attrs = Ok self /\
     RemoteSelect.lookup_url self = url) /\
  (forall class_url,
     RemoteSelect.init multiple class_url (Some None) attrs = Raise ValueError).
Proof.
  repeat split.
  - intros class_url url. by eexists.
  - intros url. by eexists.
Qed.

(** C4, as stated, fails when the class supplies a URL and the caller passes
    [lookup_url=None]: the constructor raises. *)
Lemma explicit_none_overrides_class_url :
  ~ exists self,
      RemoteSelect.init false (Some "/dashboard/lookup/") (Some None) None
      = Ok self.
Proof. by intros [self H]. Qed.

(** ** The seconds of a datetime picker *)

Lemma remove_seconds_translates f :
  translates seconds_removal f (DateTimePickerInput.remove_seconds f).
Proof.
  unfold DateTimePickerInput.remove_seconds.
  apply (re_sub_translates [":%S"; "%S"] "").
  intros k Hk. apply list_elem_of_In in Hk. simpl in Hk.
  by destruct_or!; subst.
Qed.

(** The result of the substitution is the only text that the removal of the
    seconds tokens can give. *)
Lemma remove_seconds_unique f t :
  translates seconds_removal f t -> t = DateTimePickerInput.remove_seconds f.
Proof.
  intros H. eapply translates_det;
    [|apply seconds_removal_unambiguous|done|apply remove_seconds_translates].
  intros k Hk. unfold keys, seconds_removal in Hk. simpl in Hk.
  repeat (apply elem_of_cons in Hk as [->|Hk]; [done|]).
  by apply elem_of_nil in Hk.
Qed.

(** C10, as amended. With an explicit, non-empty format and without
    [include_seconds] the stored format is the given one with every ["%S"],
    and the [":"] right before it when there is one, removed and all other
    characters in place. With [include_seconds] the format is the one the
    base class stores; without a format, or with the empty one, no format is
    stored. *)
Theorem picker_removes_seconds (attrs : option dict) :
  (forall f, f <> "" ->
   exists t, translates seconds_removal f t /\
     DateTimeWidgetMixin.format (DateTimePickerInput.init attrs (Some f) false)
     = Some t) /\
  (forall format,
     DateTimeWidgetMixin.format (DateTimePickerInput.init attrs format true)
     = DateTimeBaseInput.init_format format) /\
  (forall f, f <> "" ->
     DateTimeWidgetMixin.format (DateTimePickerInput.init attrs (Some f) true)
     = Some f) /\
  (forall include_seconds,
     DateTimeWidgetMixin.format (DateTimePickerInput.init attrs None include_seconds)
     = None) /\
  (forall include_seconds,
     DateTimeWidgetMixin.format (DateTimePickerInput.init attrs (Some "") include_seconds)
     = None).
Proof.
  repeat split.
  - intros f Hf. exists (DateTimePickerInput.remove_seconds f).
    split; [apply remove_seconds_translates|].
    by destruct f.
  - intros [f|]; [|done]. simpl. by destruct (Py.truthy f).
  - intros f Hf. by destruct f.
Qed.

Lemma picker_removes_seconds_witness :
  (exists t, translates seconds_removal "%Y-%m-%d %H:%M:%S" t /\
     DateTimeWidgetMixin.format
       (DateTimePickerInput.init None (Some "%Y-%m-%d %H:%M:%S") false)
     = Some t) /\
  DateTimeWidgetMixin.format
    (DateTimePickerInput.init None (Some "%Y-%m-%d %H:%M:%S") true)
  = Some "%Y-%m-%d %H:%M:%S".
Proof.
  destruct (picker_removes_seconds None) as (H1 & _ & H2 & _).
  split; [apply H1|apply H2]; discriminate.
Defined.

Example picker_removes_seconds_example :
  DateTimeWidgetMixin.format
    (DateTimePickerInput.init None (Some "%Y-%m-%d %H:%M:%S") false)
  = Some "%Y-%m-%d %H:%M".
Proof. by vm_compute. Qed.

(** C10, as stated, fails on the empty format string: the base class stores
    no format for it, so nothing is left to equal the given format. *)
Lemma picker_empty_format_counterexample :
  ~ exists t, translates seconds_removal "" t /\
      DateTimeWidgetMixin.format (DateTimePickerInput.init None (Some "") false)
      = Some t.
Proof. by intros (t & _ & H). Qed.

(** ** The attributes of the remote select and of the pickers *)

Lemma update_lookup self name formatted attrs :
  let d := RemoteSelect.update self name formatted attrs in
  d !! "type" = Some (VStr "hidden") /\
  d !! "name" = Some (VStr name) /\
  d !! "data-ajax-url" = Some (VStr (RemoteSelect.lookup_url self)) /\
  d !! "data-multiple"
  = Some (VStr (if RemoteSelect.is_multiple self then "multiple" else "")) /\
  d !! "value" = Some (VStr formatted) /\
  d !! "data-required"
  = Some (VStr (if RemoteSelect.is_required self then "required" else "")).
Proof. unfold RemoteSelect.update. by repeat split; simplify_map_eq. Qed.

(** Attributes of the caller that [render] does not set are passed on. *)
Lemma update_lookup_other self name formatted attrs k :
  k ∉ ["type"; "name"; "data-ajax-url"; "data-multiple"; "value"; "data-required"] ->
  RemoteSelect.update self name formatted attrs !! k = attrs !! k.
Proof.
  intros Hk. unfold RemoteSelect.update.
  repeat (rewrite lookup_insert_ne; [|intros <-; apply Hk; set_solver]).
  done.
Qed.

Lemma render_with_markup flatatt self name formatted attrs h :
  (RemoteSelect.render_with flatatt self name formatted attrs h).1
  = "<input " +:+
    flatatt (RemoteSelect.update self name formatted
               (match attrs with None => ∅ | Some a => h !!! a end)) +:+ ">".
Proof.
  unfold RemoteSelect.render_with, alloc. simpl.
  by rewrite !lookup_total_insert_eq.
Qed.

(** [render] allocates its own dictionary: every object of the heap,
    the caller's [attrs] among them, is left as it was. *)
Lemma render_with_preserves flatatt self name formatted attrs h l d :
  h !! l = Some d ->
  (RemoteSelect.render_with flatatt self name formatted attrs h).2 !! l = Some d.
Proof.
  intros Hl. unfold RemoteSelect.render_with, alloc. simpl.
  assert (l <> fresh (dom h)) as Hne.
  { intros ->. apply (is_fresh (dom h)). apply elem_of_dom. by eexists. }
  by rewrite !lookup_insert_ne.
Qed.


Lemma get_format_cases formats self :
  match DateTimeWidgetMixin.format self, formats (DateTimeWidgetMixin.format_key self) with
  | Some (String c f), _ =>
      DateTimeWidgetMixin.get_format formats self = Ok (String c f)
  | _, f0 :: _ => DateTimeWidgetMixin.get_format formats self = Ok f0
  | _, [] => DateTimeWidgetMixin.get_format formats self = Raise IndexError
  end.
Proof.
  unfold DateTimeWidgetMixin.get_format.
  destruct (DateTimeWidgetMixin.format self) as [[|c f]|];
    by destruct (formats (DateTimeWidgetMixin.format_key self)).
Qed.

(** C6, as amended. [render] emits a hidden input whose attributes hold the
    lookup URL, the multiple flag and the required flag, for the single and
    for the multiple select. [build_attrs] adds the input mask of the
    widget's format whenever the widget has one: its own format when this is
    not empty, the first input format of the locale otherwise. With no
    format of its own and no input format in the locale, [build_attrs]
    raises [IndexError]. *)
Theorem emitted_attributes (flatatt : dict -> string)
    (self : RemoteSelect.t) (name : string) (attrs : option loc) (h : heap)
    (formats : string -> list string) (picker : DateTimeWidgetMixin.t)
    (base_attrs : dict) (extra_attrs : option dict) :
  (forall formatted, exists d,
     (RemoteSelect.render_with flatatt self name formatted attrs h).1
     = "<input " +:+ flatatt d +:+ ">" /\
     d !! "type" = Some (VStr "hidden") /\
     d !! "data-ajax-url" = Some (VStr (RemoteSelect.lookup_url self)) /\
     d !! "data-multiple"
     = Some (VStr (if RemoteSelect.is_multiple self then "multiple" else "")) /\
     d !! "data-required"
     = Some (VStr (if RemoteSelect.is_required self then "required" else ""))) /\
  (forall value,
     RemoteSelect.render flatatt self name value attrs h
     = RemoteSelect.render_with flatatt self name
         (RemoteSelect.format_value value) attrs h) /\
  (forall value,
     MultipleRemoteSelect.render flatatt self name value attrs h
     = RemoteSelect.render_with flatatt self name
         (MultipleRemoteSelect.format_value value) attrs h) /\
  (forall f, DateTimeWidgetMixin.get_format formats picker = Ok f ->
   exists mask d,
     datetime_format_to_js_input_mask f = Ok mask /\
     DateTimeWidgetMixin.build_attrs formats picker base_attrs extra_attrs = Ok d /\
     d !! "data-inputmask" = Some (VStr ("'mask': '" +:+ mask +:+ "'"))) /\
  (forall c f, DateTimeWidgetMixin.format picker = Some (String c f) ->
   DateTimeWidgetMixin.get_format formats picker = Ok (String c f)) /\
  (forall f0 fs,
     DateTimeWidgetMixin.format picker = None \/
     DateTimeWidgetMixin.format picker = Some "" ->
     formats (DateTimeWidgetMixin.format_key picker) = f0 :: fs ->
     DateTimeWidgetMixin.get_format formats picker = Ok f0) /\
  (DateTimeWidgetMixin.format picker = None \/
   DateTimeWidgetMixin.format picker = Some "" ->
   formats (DateTimeWidgetMixin.format_key picker) = [] ->
   DateTimeWidgetMixin.build_attrs formats picker base_attrs extra_attrs
   = Raise IndexError).
Proof.
  pose proof (get_format_cases formats picker) as Hg.
  split; [|split; [done|split; [done|split; [|split; [|split]]]]].
  - intros formatted. eexists. split; [apply render_with_markup|].
    pose proof (update_lookup self name formatted
      (match attrs with None => ∅ | Some a => h !!! a end)) as H.
    simpl in H. tauto.
  - intros f Hf. destruct (input_mask_returns f) as [mask Hm].
    exists mask. eexists. split; [done|].
    unfold DateTimeWidgetMixin.build_attrs. rewrite Hf. simpl. rewrite Hm. simpl.
    split; [done|]. by rewrite lookup_insert_eq.
  - intros c f Hf. by rewrite Hf in Hg.
  - intros f0 fs [Hf|Hf] Hl; by rewrite Hf, Hl in Hg.
  - intros Hf Hl. unfold DateTimeWidgetMixin.build_attrs.
    destruct Hf as [Hf|Hf]; rewrite Hf, Hl in Hg; by rewrite Hg.
Qed.

Lemma emitted_attributes_witness :
  (exists mask d,
     datetime_format_to_js_input_mask "%d/%m/%Y" = Ok mask /\
     DateTimeWidgetMixin.build_attrs (fun _ => [])
       {| DateTimeWidgetMixin.format_key := "DATE_INPUT_FORMATS";
          DateTimeWidgetMixin.format := Some "%d/%m/%Y";
          DateTimeWidgetMixin.attrs := ∅ |}
       ∅ None = Ok d /\
     d !! "data-inputmask" = Some (VStr ("'mask': '" +:+ mask +:+ "'"))) /\
  DateTimeWidgetMixin.get_format (fun _ => ["%H:%M"; "%H:%M:%S"])
    {| DateTimeWidgetMixin.format_key := "TIME_INPUT_FORMATS";
       DateTimeWidgetMixin.format := Some "";
       DateTimeWidgetMixin.attrs := ∅ |}
  = Ok "%H:%M" /\
  DateTimeWidgetMixin.build_attrs (fun _ => [])
    {| DateTimeWidgetMixin.format_key := "TIME_INPUT_FORMATS";
       DateTimeWidgetMixin.format := None;
       DateTimeWidgetMixin.attrs := ∅ |}
    ∅ None
  = Raise IndexError.
Proof.
  split; [|split].
  - destruct (emitted_attributes (fun _ => "")
                {| RemoteSelect.is_multiple := false;
                   RemoteSelect.lookup_url := "/lookup/";
                   RemoteSelect.is_required := false;
                   RemoteSelect.attrs := ∅ |}
                "product" None ∅ (fun _ => [])
                {| DateTimeWidgetMixin.format_key := "DATE_INPUT_FORMATS";
                   DateTimeWidgetMixin.format := Some "%d/%m/%Y";
                   DateTimeWidgetMixin.attrs := ∅ |}
                ∅ None) as (_ & _ & _ & H & _).
    apply (H "%d/%m/%Y"). reflexivity.
  - destruct (emitted_attributes (fun _ => "")
                {| RemoteSelect.is_multiple := false;
                   RemoteSelect.lookup_url := "/lookup/";
                   RemoteSelect.is_required := false;
                   RemoteSelect.attrs := ∅ |}
                "product" None ∅ (fun _ => ["%H:%M"; "%H:%M:%S"])
                {| DateTimeWidgetMixin.format_key := "TIME_INPUT_FORMATS";
                   DateTimeWidgetMixin.format := Some "";
                   DateTimeWidgetMixin.attrs := ∅ |}
                ∅ None) as (_ & _ & _ & _ & _ & H & _).
    apply (H "%H:%M" ["%H:%M:%S"]); [right|]; reflexivity.
  - destruct (emitted_attributes (fun _ => "")
                {| RemoteSelect.is_multiple := false;
                   RemoteSelect.lookup_url := "/lookup/";
                   RemoteSelect.is_required := false;
                   RemoteSelect.attrs := ∅ |}
                "product" None ∅ (fun _ => [])
                {| DateTimeWidgetMixin.format_key := "TIME_INPUT_FORMATS";
                   DateTimeWidgetMixin.format := None;
                   DateTimeWidgetMixin.attrs := ∅ |}
                ∅ None) as (_ & _ & _ & _ & _ & _ & H).
    apply H; [left|]; reflexivity.
Defined.

(** C6, as stated, fails: [build_attrs] does not always add the attribute.
    A widget without a format, in a locale without an input format for the
    widget's key, gets no attributes at all: [get_format(...)[0]] raises. *)
Lemma build_attrs_counterexample :
  ~ (exists d,
       DateTimeWidgetMixin.build_attrs (fun _ => [])
         {| DateTimeWidgetMixin.format_key := "TIME_INPUT_FORMATS";
            DateTimeWidgetMixin.format := None;
            DateTimeWidgetMixin.attrs := ∅ |}
         ∅ None = Ok d).
Proof. intros [d H]. by vm_compute in H. Qed.

Example build_attrs_example :
  DateTimeWidgetMixin.build_attrs (fun _ => [])
    {| DateTimeWidgetMixin.format_key := "DATE_INPUT_FORMATS";
       DateTimeWidgetMixin.format := Some "%d/%m/%Y";
       DateTimeWidgetMixin.attrs := ∅ |}
    ∅ None
  = Ok {[ "data-inputmask" := VStr "'mask': 'd/m/y'" ]}.
Proof. by vm_compute. Qed.

(** ** Constructors and the caller's attributes *)

(** [WYSIWYGTextArea(attrs=d)] appends the class to the caller's [d]. *)
Lemma wysiwyg_init_mutates (h : heap) l (d : dict) c :
  h !! l = Some d -> d !! "class" = Some (VStr c) ->
  (WYSIWYGTextArea.init (Some (Some l)) h).2 !! l
  = Some (<["class" := VStr (c +:+ " wysiwyg")]> d).
Proof.
  intros Hl Hc. unfold WYSIWYGTextArea.init, setdefault.
  rewrite (lookup_total_correct _ _ _ Hl), Hc.
  rewrite !lookup_total_insert_eq, Hc. simpl.
  by rewrite lookup_insert_eq.
Qed.

(** [ImageInput(attrs=d)] adds [accept] to a non-empty [d] of the caller. *)
Lemma image_input_init_mutates (h : heap) l (d : dict) :
  h !! l = Some d -> d <> ∅ ->
  (ImageInput.init (Some l) h).2 !! l
  = Some (<["accept" := VStr "image/*"]> d).
Proof.
  intros Hl Hd. unfold ImageInput.init.
  rewrite (lookup_total_correct _ _ _ Hl), bool_decide_eq_false_2 by done.
  simpl. by rewrite lookup_insert_eq, (lookup_total_correct _ _ _ Hl).
Qed.

(** C7. After [WYSIWYGTextArea(attrs=d)] with [d = {'class': 'big'}] the
    caller's [d] is [{'class': 'big wysiwyg'}]; after [ImageInput(attrs=d)]
    it holds [accept] as well. [render] leaves the same [d] alone. *)
Theorem constructors_change_caller_attrs :
  let d : dict := {[ "class" := VStr "big" ]} in
  let h : heap := {[ 1%positive := d ]} in
  (WYSIWYGTextArea.init (Some (Some 1%positive)) h).2 !! 1%positive
  = Some {[ "class" := VStr "big wysiwyg" ]} /\
  (ImageInput.init (Some 1%positive) h).2 !! 1%positive
  = Some (<["accept" := VStr "image/*"]> d) /\
  forall flatatt self name formatted,
    (RemoteSelect.render_with flatatt self name formatted (Some 1%positive) h).2
      !! 1%positive
    = Some d.
Proof.
  intros d h. split; [|split].
  - by rewrite (wysiwyg_init_mutates h 1%positive d "big").
  - apply image_input_init_mutates; [done|].
    intros Hd. apply (f_equal (fun m : dict => m !! "class")) in Hd.
    unfold d in Hd. by rewrite lookup_singleton_eq in Hd.
  - intros. by apply render_with_preserves.
Qed.

(** ** AdvancedSelect *)

Lemma disabled_values_init attrs choices disabled s :
  s ∈ AdvancedSelect.disabled_values (AdvancedSelect.init attrs choices disabled)
  <-> exists v, v ∈ disabled /\ force_text v = s.
Proof.
  unfold AdvancedSelect.init. simpl.
  rewrite elem_of_list_to_set, list_elem_of_fmap.
  split; intros (v & H1 & H2); exists v; by split.
Qed.

(** C8. [create_option] sets [attrs['disabled'] = True] exactly when the
    string form of the value is the string form of one of the disabled
    values given to the constructor; everything else is the option of the
    base class. *)
Theorem create_option_disables
    (Select_create_option :
       AdvancedSelect.t -> string -> value -> string -> bool -> Z ->
       option Z -> option dict -> select_option)
    (widget_attrs : option dict) (choices : list (value * string))
    (disabled : list value)
    (name : string) (value : value) (label : string) (selected : bool)
    (index : Z) (subindex : option Z) (attrs : option dict) :
  let self := AdvancedSelect.init widget_attrs choices disabled in
  let base :=
    Select_create_option self name value label selected index subindex attrs in
  let option :=
    AdvancedSelect.create_option Select_create_option self name value label
      selected index subindex attrs in
  (force_text value ∈ AdvancedSelect.disabled_values self <->
   exists v, v ∈ disabled /\ force_text v = force_text value) /\
  ((exists v, v ∈ disabled /\ force_text v = force_text value) ->
   opt_attrs option = <["disabled" := VBool true]> (opt_attrs base)) /\
  (~ (exists v, v ∈ disabled /\ force_text v = force_text value) ->
   opt_attrs option = opt_attrs base) /\
  opt_name option = opt_name base /\
  opt_value option = opt_value base /\
  opt_label option = opt_label base /\
  opt_selected option = opt_selected base /\
  opt_index option = opt_index base /\
  opt_type option = opt_type base /\
  opt_template_name option = opt_template_name base.
Proof.
  intros self base option.
  pose proof (disabled_values_init widget_attrs choices disabled
                (force_text value)) as Hin.
  fold self in Hin. split; [done|].
  unfold option, AdvancedSelect.create_option. fold base.
  destruct (bool_decide_reflect
              (force_text value ∈ AdvancedSelect.disabled_values self))
    as [Hd|Hd]; simpl; repeat split; try done.
  - intros Hn. destruct Hn. by apply Hin.
  - intros Hv. destruct Hd. by apply Hin.
Qed.

Lemma create_option_disables_witness :
  let Select_create_option :=
    fun (_ : AdvancedSelect.t) name value label selected (index : Z)
        (_ : option Z) (_ : option dict) =>
      {| opt_name := name; opt_value := value; opt_label := label;
         opt_selected := selected; opt_index := "0";
         opt_attrs := if selected then {[ "selected" := VBool true ]} else ∅;
         opt_type := "select";
         opt_template_name := "django/forms/widgets/select_option.html" |} in
  let self := AdvancedSelect.init None [] [VInt 2; VStr "x"] in
  opt_attrs (AdvancedSelect.create_option Select_create_option self
               "size" (VStr "2") "Two" true 0 None None)
  = <["disabled" := VBool true]> {[ "selected" := VBool true ]} /\
  opt_attrs (AdvancedSelect.create_option Select_create_option self
               "size" (VInt 3) "Three" false 1 None None)
  = ∅.
Proof.
  intros Sel self. split.
  - apply (create_option_disables Sel None [] [VInt 2; VStr "x"]
             "size" (VStr "2") "Two" true 0 None None).
    exists (VInt 2). split; [|reflexivity]. apply list_elem_of_In. simpl. tauto.
  - apply (create_option_disables Sel None [] [VInt 2; VStr "x"]
             "size" (VInt 3) "Three" false 1 None None).
    intros (v & Hv & Ht). apply list_elem_of_In in Hv. simpl in Hv.
    destruct_or!; subst; try discriminate; contradiction.
Defined.

(** * Further properties of the widgets *)

(** ** White space, words and stripping *)

Lemma append_empty_r (s : string) : s +:+ "" = s.
Proof. induction s as [|c s IH]; simpl; [done|by rewrite IH]. Qed.

Lemma no_space_app s t : no_space (s +:+ t) = no_space s && no_space t.
Proof.
  induction s as [|c s IH]; simpl; [done|]. by rewrite IH, andb_assoc.
Qed.

Lemma lstrip_empty_all_space s : Py.lstrip s = "" <-> all_space s = true.
Proof.
  induction s as [|c s IH]; simpl; [done|].
  destruct (Py.isspace c); simpl; [done|]. split; done.
Qed.

Lemma split_nil_all_space s : Py.split s = [] <-> all_space s = true.
Proof. by rewrite split_nil_lstrip, lstrip_empty_all_space. Qed.

Lemma starts_word_split s : Py.starts_word s = true -> Py.split s <> [].
Proof.
  destruct s as [|c s]; [done|]. simpl. intros Hc.
  apply negb_true_iff in Hc. rewrite Hc.
  by destruct (Py.starts_word s), (Py.split s).
Qed.

(** The words of [split] are non-empty and hold no white space. *)
Lemma split_words s :
  Forall (fun w => Py.is_empty w = false /\ no_space w = true) (Py.split s).
Proof.
  induction s as [|c s IH]; simpl; [constructor|].
  destruct (Py.isspace c) eqn:Hc; [done|].
  destruct (Py.starts_word s) eqn:Hs.
  - destruct (Py.split s) as [|w ws] eqn:E; [by repeat constructor; simpl; rewrite ?Hc|].
    apply Forall_cons in IH as [[_ Hw] Hws].
    constructor; [|done]. simpl. by rewrite Hc, Hw.
  - constructor; [|done]. simpl. by rewrite Hc.
Qed.

(** A single word is its own only word. *)
Lemma split_word w :
  Py.is_empty w = false -> no_space w = true -> Py.split w = [w].
Proof.
  induction w as [|c w IH]; [done|]. intros _. simpl.
  intros H. apply andb_true_iff in H as [Hc Hw].
  apply negb_true_iff in Hc. rewrite Hc.
  destruct w as [|d w]; [done|].
  assert (Py.starts_word (String d w) = true) as ->.
  { simpl in Hw. apply andb_true_iff in Hw as [Hd _]. done. }
  by rewrite IH.
Qed.

Lemma rstrip_last s :
  Py.rstrip s = "" \/
  exists d, last_char (Py.rstrip s) = Some d /\ Py.isspace d = false.
Proof.
  induction s as [|c s IH]; [by left|]. simpl.
  destruct (Py.isspace c && Py.is_empty (Py.rstrip s)) eqn:E; [by left|].
  right. destruct (Py.rstrip s) as [|d r] eqn:Hr.
  - exists c. split; [done|]. simpl in E. by rewrite andb_true_r in E.
  - destruct IH as [?|(e & He & Hs)]; [done|]. by exists e.
Qed.

Lemma lstrip_first s :
  match Py.lstrip s with
  | EmptyString => True
  | String c _ => Py.isspace c = false
  end.
Proof.
  induction s as [|c s IH]; simpl; [done|].
  by destruct (Py.isspace c) eqn:E.
Qed.

(** [strip] leaves no white space at either end. *)
Lemma strip_trimmed s : trimmed (Py.strip s).
Proof.
  unfold Py.strip. pose proof (lstrip_first s) as Hf.
  pose proof (rstrip_last (Py.lstrip s)) as Hl.
  destruct (Py.lstrip s) as [|c t]; [done|].
  change (Py.rstrip (String c t)) with
    (if Py.isspace c && Py.is_empty (Py.rstrip t)
     then "" else String c (Py.rstrip t)) in *.
  rewrite Hf in *. change (false && Py.is_empty (Py.rstrip t)) with false in *.
  cbv iota in *. destruct Hl as [Hl|Hl]; [done|]. by split.
Qed.

Lemma rstrip_no_space s : no_space s = true -> Py.rstrip s = s.
Proof.
  induction s as [|c s IH]; [done|]. simpl. intros H.
  apply andb_true_iff in H as [Hc Hs]. apply negb_true_iff in Hc.
  by rewrite Hc, IH.
Qed.

Lemma strip_no_space s : no_space s = true -> Py.strip s = s.
Proof.
  intros H. unfold Py.strip.
  assert (Py.lstrip s = s) as ->; [|by apply rstrip_no_space].
  destruct s as [|c s]; [done|]. simpl in *.
  apply andb_true_iff in H as [Hc _]. apply negb_true_iff in Hc. by rewrite Hc.
Qed.

Lemma is_empty_app s t : Py.is_empty s = false -> Py.is_empty (s +:+ t) = false.
Proof. by destruct s. Qed.

Lemma replace_scan_no_space old new skip s :
  no_space new = true -> no_space s = true ->
  no_space (Py.replace_scan old new skip s) = true.
Proof.
  intros Hnew. revert skip. induction s as [|c s IH]; intros skip Hs; [done|].
  simpl in Hs. apply andb_true_iff in Hs as [Hc Hs].
  simpl. destruct skip as [|k]; [|by apply IH].
  destruct (String.prefix old (String c s)).
  - rewrite no_space_app, Hnew. by apply IH.
  - simpl. rewrite Hc. by apply IH.
Qed.

Lemma intersperse_all_no_space new s :
  no_space new = true -> no_space s = true ->
  no_space (Py.intersperse_all new s) = true.
Proof.
  intros Hnew. induction s as [|c s IH]; intros Hs; [done|].
  simpl in Hs. apply andb_true_iff in Hs as [Hc Hs].
  simpl. rewrite no_space_app, Hnew. simpl. rewrite Hc. by apply IH.
Qed.

Lemma replace_no_space old new s :
  no_space new = true -> no_space s = true ->
  no_space (Py.replace old new s) = true.
Proof.
  intros. unfold Py.replace. destruct (Py.is_empty old).
  - by apply intersperse_all_no_space.
  - by apply replace_scan_no_space.
Qed.

Lemma replace_nonempty old new s :
  Py.is_empty new = false -> Py.is_empty s = false ->
  Py.is_empty (Py.replace old new s) = false.
Proof.
  intros Hnew Hs. unfold Py.replace. destruct (Py.is_empty old).
  - destruct s as [|c s]; [done|]. simpl. by apply is_empty_app.
  - destruct s as [|c s]; [done|]. simpl.
    destruct (String.prefix old (String c s)); [by apply is_empty_app|done].
Qed.

(** The loop of replacements keeps a text non-empty and free of white space
    when the replacements are. *)
Lemma replace_all_word (tbl : table) s :
  Forall (fun kv => Py.is_empty kv.2 = false /\ no_space kv.2 = true) tbl ->
  Py.is_empty s = false -> no_space s = true ->
  Py.is_empty (replace_all tbl s) = false /\ no_space (replace_all tbl s) = true.
Proof.
  unfold replace_all. intros Htbl. revert s.
  induction Htbl as [|[k v] tbl [Hv1 Hv2] _ IH]; intros s He Hs; [done|].
  simpl. apply IH; [by apply replace_nonempty|by apply replace_no_space].
Qed.

Lemma datetime_replacements_words :
  Forall (fun kv => Py.is_empty kv.2 = false /\ no_space kv.2 = true)
    datetime_replacements.
Proof. unfold datetime_replacements. by repeat constructor. Qed.

(** ** More on the format-token translation functions *)

(** The date format raises on the blank formats and returns a word on the
    others. *)
Lemma date_format_cases (format : string) :
  if all_space format
  then datetime_format_to_js_date_format format = Raise IndexError
  else exists js,
         datetime_format_to_js_date_format format = Ok js /\
         Py.is_empty js = false /\ no_space js = true.
Proof.
  unfold datetime_format_to_js_date_format, datetime_format_to_js_datetime_format.
  pose proof (split_nil_all_space format) as Hnil.
  pose proof (split_words format) as Hw.
  destruct (all_space format).
  - by rewrite (proj2 Hnil eq_refl).
  - destruct (Py.split format) as [|w ws]; [by pose proof (proj1 Hnil eq_refl)|].
    apply Forall_cons in Hw as [[He Hs] _].
    destruct (replace_all_word _ w datetime_replacements_words He Hs) as [H1 H2].
    eexists. split; [done|]. rewrite strip_no_space by done. by split.
Qed.

(** X1. The date format raises [IndexError] exactly on the formats made of
    white space only (the empty one included); on every other format it
    returns a non-empty text without any white space. *)
Theorem date_format_blank_or_word (format : string) :
  if all_space format
  then datetime_format_to_js_date_format format = Raise IndexError
  else exists js,
         datetime_format_to_js_date_format format = Ok js /\
         Py.is_empty js = false /\ no_space js = true.
Proof. apply date_format_cases. Qed.

(** X2. Whatever the format, no result of the four translation functions
    starts or ends with white space. *)
Theorem translations_are_trimmed (format : string) :
  trimmed (datetime_format_to_js_datetime_format format) /\
  trimmed (datetime_format_to_js_time_format format) /\
  match datetime_format_to_js_input_mask format with
  | Ok mask => trimmed mask
  | Raise _ => False
  end /\
  match datetime_format_to_js_date_format format with
  | Ok js => trimmed js
  | Raise _ => all_space format = true
  end.
Proof.
  split; [apply strip_trimmed|]. split; [apply strip_trimmed|]. split.
  - rewrite input_mask_scan. apply strip_trimmed.
  - unfold datetime_format_to_js_date_format.
    pose proof (split_nil_all_space format) as Hnil.
    destruct (Py.split format); [by apply Hnil|apply strip_trimmed].
Qed.

(** X3. Only the selected word matters: the date format of a format is the
    date format of its first word alone, and when there is a second word the
    time format is the time format of that word alone. *)
Theorem selected_word_only (format w0 : string) (rest : list string) :
  Py.split format = w0 :: rest ->
  datetime_format_to_js_date_format format
  = datetime_format_to_js_date_format w0 /\
  forall w1 rest', rest = w1 :: rest' ->
    datetime_format_to_js_time_format format
    = datetime_format_to_js_time_format w1.
Proof.
  intros Hsplit. pose proof (split_words format) as Hw. rewrite Hsplit in Hw.
  apply Forall_cons in Hw as [[He0 Hs0] Hrest].
  unfold datetime_format_to_js_date_format, datetime_format_to_js_time_format.
  rewrite Hsplit, (split_word w0 He0 Hs0). split; [done|].
  intros w1 rest' ->. apply Forall_cons in Hrest as [[He1 Hs1] _].
  by rewrite (split_word w1 He1 Hs1).
Qed.

Lemma selected_word_only_witness :
  datetime_format_to_js_date_format "  %d.%m.%Y   %H:%M  extra"
  = datetime_format_to_js_date_format "%d.%m.%Y" /\
  datetime_format_to_js_time_format "  %d.%m.%Y   %H:%M  extra"
  = datetime_format_to_js_time_format "%H:%M".
Proof.
  destruct (selected_word_only "  %d.%m.%Y   %H:%M  extra" "%d.%m.%Y"
              ["%H:%M"; "extra"] eq_refl) as [Hd Ht].
  split; [exact Hd|]. apply (Ht "%H:%M" ["extra"]). reflexivity.
Defined.

Lemma replace_all_no_pct T s :
  no_pct s = true -> replace_all (strtab T) s = s.
Proof.
  intros Hs. induction T as [|[x v] T IH]; [done|].
  rewrite replace_all_cons.
  assert (scan [(x, v)] s = s) as ->; [|done].
  rewrite <- (append_empty_r s) at 1. rewrite scan_no_pct by done.
  simpl. apply append_empty_r.
Qed.

Lemma scan_no_pct_id T s : no_pct s = true -> scan T s = s.
Proof.
  intros Hs. rewrite <- (append_empty_r s) at 1. rewrite scan_no_pct by done.
  simpl. apply append_empty_r.
Qed.

(** X4. A format without any ["%"] is only stripped, by the loop of
    replacements and by the regular expression alike. *)
Theorem format_without_percent (format : string) :
  no_pct format = true ->
  datetime_format_to_js_datetime_format format = Py.strip format /\
  datetime_format_to_js_input_mask format = Ok (Py.strip format).
Proof.
  intros Hf. split.
  - unfold datetime_format_to_js_datetime_format.
    by rewrite datetime_replacements_strtab, replace_all_no_pct.
  - by rewrite input_mask_scan, scan_no_pct_id.
Qed.

Lemma format_without_percent_witness :
  datetime_format_to_js_datetime_format " dd/mm/yyyy " = "dd/mm/yyyy" /\
  datetime_format_to_js_input_mask " dd/mm/yyyy " = Ok "dd/mm/yyyy".
Proof. apply (format_without_percent " dd/mm/yyyy "). reflexivity. Defined.

(** X5. For any dictionary that is not empty and whose keys are not empty,
    [multiple_replace] never raises ([dict[...]] always finds the matched
    text) and its result is a token-by-token translation of the text by the
    dictionary; for the empty dictionary it raises [KeyError]. *)
Theorem multiple_replace_any_dict (dict : table) (text : string) :
  multiple_replace [] text = Raise KeyError /\
  (dict <> [] -> nonempty_keys dict ->
   exists t, multiple_replace dict text = Ok t /\ translates dict text t).
Proof. split; [done|]. intros H1 H2. by apply multiple_replace_translates. Qed.

Lemma multiple_replace_any_dict_witness :
  exists t,
    multiple_replace [("<b>", "*"); ("</b>", "*"); ("&amp;", "&")]
      "<b>R&amp;D</b>" = Ok t /\
    translates [("<b>", "*"); ("</b>", "*"); ("&amp;", "&")] "<b>R&amp;D</b>" t.
Proof.
  apply (multiple_replace_any_dict [("<b>", "*"); ("</b>", "*"); ("&amp;", "&")]);
    [discriminate|].
  intros k Hk. apply list_elem_of_In in Hk. simpl in Hk.
  destruct_or!; subst; reflexivity || contradiction.
Defined.

(** ** More on the pickers *)


(** X6. [build_attrs] raises [IndexError] exactly when the widget holds no
    format (none, or the empty string) and the locale has no input format for
    the widget's key; in every other case it returns. *)
Theorem build_attrs_raises_iff (formats : string -> list string)
    (self : DateTimeWidgetMixin.t) (base_attrs : dict)
    (extra_attrs : option dict) :
  let has_format :=
    match DateTimeWidgetMixin.format self with
    | Some f => Py.truthy f
    | None => false
    end in
  let has_locale_format :=
    match formats (DateTimeWidgetMixin.format_key self) with
    | [] => false
    | _ :: _ => true
    end in
  if has_format || has_locale_format
  then returns
         (DateTimeWidgetMixin.build_attrs formats self base_attrs extra_attrs)
  else DateTimeWidgetMixin.build_attrs formats self base_attrs extra_attrs
       = Raise IndexError.
Proof.
  unfold DateTimeWidgetMixin.build_attrs.
  pose proof (get_format_cases formats self) as Hg.
  destruct (DateTimeWidgetMixin.format self) as [[|c f]|];
    destruct (formats (DateTimeWidgetMixin.format_key self)) as [|f0 fs];
    rewrite Hg; simpl;
    try (destruct (input_mask_returns (String c f)) as [m ->]);
    try (destruct (input_mask_returns f0) as [m ->]);
    simpl; try done; by eexists.
Qed.

(** X7. Apart from [data-inputmask], the attributes that [build_attrs]
    returns are those of [extra_attrs], then those of [base_attrs]: an
    extra attribute hides a base attribute of the same name. *)
Theorem build_attrs_keeps_attributes (formats : string -> list string)
    (self : DateTimeWidgetMixin.t) (base_attrs : dict)
    (extra_attrs : option dict) (d : dict) (k : string) :
  DateTimeWidgetMixin.build_attrs formats self base_attrs extra_attrs = Ok d ->
  k <> "data-inputmask" ->
  d !! k = match extra_attrs ≫= (.!! k) with
           | Some v => Some v
           | None => base_attrs !! k
           end.
Proof.
  unfold DateTimeWidgetMixin.build_attrs. intros H Hk.
  destruct (DateTimeWidgetMixin.get_format formats self) as [f|]; [|done].
  simpl in H. destruct (datetime_format_to_js_input_mask f) as [m|]; [|done].
  simpl in H. injection H as <-. rewrite lookup_insert_ne by done.
  unfold Widget.build_attrs. destruct extra_attrs as [e|]; simpl; [|done].
  rewrite lookup_union. by destruct (e !! k), (base_attrs !! k).
Qed.

Lemma build_attrs_keeps_attributes_witness :
  exists d,
    DateTimeWidgetMixin.build_attrs (fun _ => ["%d/%m/%Y"])
      (TimePickerInput.init None (Some "%H:%M"))
      {[ "class" := VStr "a"; "id" := VStr "id_t" ]}
      (Some {[ "class" := VStr "b" ]}) = Ok d /\
    d !! "class" = Some (VStr "b") /\
    d !! "id" = Some (VStr "id_t").
Proof.
  destruct (DateTimeWidgetMixin.build_attrs (fun _ => ["%d/%m/%Y"])
              (TimePickerInput.init None (Some "%H:%M"))
              {[ "class" := VStr "a"; "id" := VStr "id_t" ]}
              (Some {[ "class" := VStr "b" ]})) as [d|e] eqn:H;
    [|vm_compute in H; discriminate].
  exists d. split; [reflexivity|]. split.
  - rewrite (build_attrs_keeps_attributes _ _ _ _ d "class" H); [|discriminate].
    reflexivity.
  - rewrite (build_attrs_keeps_attributes _ _ _ _ d "id" H); [|discriminate].
    reflexivity.
Defined.

Section picker_contexts.
Variable formats : string -> list string.
Variable super_get_context :
  DateTimeWidgetMixin.t -> string -> value -> option dict -> result context.

(** X8. Once the base class has built the context and the widget has a format
    [f], the time and the datetime picker always return, with [div_attrs]
    holding the picker's kind and the translated format and nothing else; the
    date picker raises [IndexError] when [f] is made of white space only and
    returns likewise otherwise. *)
Theorem pickers_get_context (self : DateTimeWidgetMixin.t) (name : string)
    (value : value) (attrs : option dict) (ctx : context) (f : string) :
  super_get_context self name value attrs = Ok ctx ->
  DateTimeWidgetMixin.get_format formats self = Ok f ->
  (exists ctx',
     TimePickerInput.get_context formats super_get_context self name value attrs
     = Ok ctx' /\
     ctx' !! "div_attrs"
     = Some (EAttrs {[ "data-oscarWidget" := VStr "time";
                       "data-timeFormat" :=
                         VStr (datetime_format_to_js_time_format f) ]})) /\
  (exists ctx',
     DateTimePickerInput.get_context formats super_get_context self name value attrs
     = Ok ctx' /\
     ctx' !! "div_attrs"
     = Some (EAttrs {[ "data-oscarWidget" := VStr "datetime";
                       "data-datetimeFormat" :=
                         VStr (datetime_format_to_js_datetime_format f) ]})) /\
  (if all_space f
   then DatePickerInput.get_context formats super_get_context self name value attrs
        = Raise IndexError
   else exists ctx' js,
     DatePickerInput.get_context formats super_get_context self name value attrs
     = Ok ctx' /\
     datetime_format_to_js_date_format f = Ok js /\
     ctx' !! "div_attrs"
     = Some (EAttrs {[ "data-oscarWidget" := VStr "date";
                       "data-dateFormat" := VStr js ]})).
Proof.
  intros Hctx Hf.
  unfold TimePickerInput.get_context, DateTimePickerInput.get_context,
    DatePickerInput.get_context.
  rewrite Hctx, Hf. simpl. split; [|split].
  - eexists. split; [done|]. by simplify_map_eq.
  - eexists. split; [done|]. by simplify_map_eq.
  - pose proof (date_format_cases f) as Hd.
    destruct (all_space f).
    + by rewrite Hd.
    + destruct Hd as (js & -> & _). simpl. eexists _, js.
      split; [done|]. split; [done|]. by simplify_map_eq.
Qed.

(** X9. Whichever picker returns a context, it is the context of the base
    class with [div_attrs] and [icon_classes] set: every other entry, the
    [widget] entry among them, is passed on as it came. *)
Theorem pickers_keep_base_context (self : DateTimeWidgetMixin.t)
    (name : string) (value : value) (attrs : option dict)
    (ctx ctx' : context) (k : string) :
  super_get_context self name value attrs = Ok ctx ->
  TimePickerInput.get_context formats super_get_context self name value attrs
  = Ok ctx' \/
  DatePickerInput.get_context formats super_get_context self name value attrs
  = Ok ctx' \/
  DateTimePickerInput.get_context formats super_get_context self name value attrs
  = Ok ctx' ->
  k <> "div_attrs" -> k <> "icon_classes" ->
  ctx' !! k = ctx !! k /\
  is_Some (ctx' !! "div_attrs") /\ is_Some (ctx' !! "icon_classes").
Proof.
  intros Hctx H Hk1 Hk2.
  unfold TimePickerInput.get_context, DateTimePickerInput.get_context,
    DatePickerInput.get_context in H.
  rewrite Hctx in H. simpl in H.
  destruct (DateTimeWidgetMixin.get_format formats self) as [f|];
    [|by destruct_or!].
  simpl in H.
  destruct H as [H|[H|H]].
  - injection H as <-. by simplify_map_eq.
  - destruct (datetime_format_to_js_date_format f) as [js|]; [|done].
    simpl in H. injection H as <-. by simplify_map_eq.
  - injection H as <-. by simplify_map_eq.
Qed.
End picker_contexts.

Lemma pickers_get_context_witness :
  let formats := fun _ : string => ["%d/%m/%Y %H:%M"] in
  let super_get_context :=
    fun (_ : DateTimeWidgetMixin.t) (name : string) (_ : value)
        (_ : option dict) =>
      Ok ({[ "widget" := EWidget {[ "name" := WVal (VStr name) ]} ]} : context) in
  DatePickerInput.get_context formats super_get_context
    (DatePickerInput.init None (Some " ")) "start" VNone None
  = Raise IndexError /\
  exists ctx',
    TimePickerInput.get_context formats super_get_context
      (DatePickerInput.init None (Some " ")) "start" VNone None
    = Ok ctx' /\
    ctx' !! "div_attrs"
    = Some (EAttrs {[ "data-oscarWidget" := VStr "time";
                      "data-timeFormat" := VStr (datetime_format_to_js_time_format " ") ]}).
Proof.
  intros formats super_get_context.
  destruct (pickers_get_context formats super_get_context
              (DatePickerInput.init None (Some " ")) "start" VNone None
              {[ "widget" := EWidget {[ "name" := WVal (VStr "start") ]} ]} " "
              eq_refl eq_refl) as (Ht & _ & Hd).
  split; [exact Hd|exact Ht].
Defined.

Lemma pickers_keep_base_context_witness :
  let formats := fun _ : string => ["%d/%m/%Y %H:%M"] in
  let super_get_context :=
    fun (_ : DateTimeWidgetMixin.t) (name : string) (_ : value)
        (_ : option dict) =>
      Ok ({[ "widget" := EWidget {[ "name" := WVal (VStr name) ]} ]} : context) in
  exists ctx',
    TimePickerInput.get_context formats super_get_context
      (TimePickerInput.init None None) "start" VNone None = Ok ctx' /\
    ctx' !! "widget" = Some (EWidget {[ "name" := WVal (VStr "start") ]}).
Proof.
  intros formats super_get_context.
  destruct (TimePickerInput.get_context formats super_get_context
              (TimePickerInput.init None None) "start" VNone None)
    as [ctx'|e] eqn:H; [|vm_compute in H; discriminate].
  exists ctx'. split; [reflexivity|].
  apply (pickers_keep_base_context formats super_get_context
           (TimePickerInput.init None None) "start" VNone None
           {[ "widget" := EWidget {[ "name" := WVal (VStr "start") ]} ]}
           ctx' "widget" eq_refl (or_introl H)); discriminate.
Defined.

(** A format that holds no ["%S"] has no seconds to remove. *)
Lemma remove_seconds_none f :
  Py.contains "%S" f = false -> DateTimePickerInput.remove_seconds f = f.
Proof.
  unfold DateTimePickerInput.remove_seconds, Py.re_sub.
  induction f as [|c s IH]; [done|]. intros Hf.
  pose proof (contains_head _ _ Hf) as Hh.
  pose proof (contains_tail _ _ _ Hf) as Ht.
  pose proof (contains_head _ _ Ht) as Hth.
  rewrite re_scan_other.
  - cbn [foldr]. f_equal. by apply IH.
  - unfold Py.match_alt. simpl.
    rewrite Hh. rewrite prefix_cons, Hth. by rewrite andb_false_r.
Qed.

(** X10. A non-empty format without any ["%S"] is stored as it is given, with
    or without [include_seconds]. *)
Theorem picker_keeps_format_without_seconds (attrs : option dict)
    (f : string) (include_seconds : bool) :
  f <> "" -> Py.contains "%S" f = false ->
  DateTimeWidgetMixin.format (DateTimePickerInput.init attrs (Some f) include_seconds)
  = Some f.
Proof.
  intros Hne Hf. destruct f as [|c f]; [done|].
  unfold DateTimePickerInput.init. simpl.
  destruct include_seconds; simpl; [done|]. by rewrite remove_seconds_none.
Qed.

Lemma picker_keeps_format_without_seconds_witness :
  DateTimeWidgetMixin.format (DateTimePickerInput.init None (Some "%d/%m/%Y %H:%M") false)
  = Some "%d/%m/%Y %H:%M".
Proof.
  apply (picker_keeps_format_without_seconds None "%d/%m/%Y %H:%M" false);
    [discriminate|reflexivity].
Defined.

(** X11. When the removal of the seconds leaves nothing of the format, the
    widget falls back on the locale: [get_format] answers as for a widget
    built without any format. *)
Theorem picker_seconds_only_falls_back (formats : string -> list string)
    (attrs : option dict) (f : string) :
  DateTimePickerInput.remove_seconds f = "" ->
  DateTimeWidgetMixin.get_format formats (DateTimePickerInput.init attrs (Some f) false)
  = DateTimeWidgetMixin.get_format formats (DateTimePickerInput.init attrs None false).
Proof.
  intros Hf. unfold DateTimePickerInput.init, DateTimeWidgetMixin.get_format.
  destruct f as [|c f]; [done|]. simpl. by rewrite Hf.
Qed.

Lemma picker_seconds_only_falls_back_witness :
  DateTimeWidgetMixin.get_format (fun _ => ["%Y-%m-%d %H:%M:%S"])
    (DateTimePickerInput.init None (Some ":%S") false)
  = Ok "%Y-%m-%d %H:%M:%S".
Proof.
  apply (picker_seconds_only_falls_back (fun _ => ["%Y-%m-%d %H:%M:%S"])
           None ":%S").
  reflexivity.
Defined.

(** ** ImageInput *)

Lemma alloc_fresh (d : dict) (h : heap) : h !! (alloc d h).1 = None.
Proof.
  unfold alloc. simpl. apply not_elem_of_dom, is_fresh.
Qed.

Lemma image_input_init_fresh (h : heap) :
  ImageInput.init None h
  = ({| ImageInput.attrs := {[ "accept" := VStr "image/*" ]} |},
     <[fresh (dom h) := {[ "accept" := VStr "image/*" ]}]> h).
Proof.
  unfold ImageInput.init, alloc. simpl.
  rewrite !lookup_total_insert_eq, insert_insert_eq.
  by rewrite insert_empty.
Qed.

Lemma image_input_init_empty (h : heap) l :
  h !!! l = (∅ : dict) -> ImageInput.init (Some l) h = ImageInput.init None h.
Proof.
  intros Hl. unfold ImageInput.init. by rewrite bool_decide_eq_true_2.
Qed.

Lemma image_input_init_nonempty (h : heap) l :
  h !!! l <> (∅ : dict) ->
  ImageInput.init (Some l) h
  = ({| ImageInput.attrs := <["accept" := VStr "image/*"]> (h !!! l) |},
     <[l := <["accept" := VStr "image/*"]> (h !!! l)]> h).
Proof.
  intros Hl. unfold ImageInput.init. rewrite bool_decide_eq_false_2 by done.
  simpl. by rewrite lookup_total_insert_eq.
Qed.


(** X13. Of the dictionaries that exist before [ImageInput] is built, only
    a non-empty [attrs] argument changes, and it gains [accept]; an empty
    [attrs] argument stays empty, as every other dictionary stays as it is. *)
Theorem image_input_heap (attrs : option loc) (h : heap) (l : loc) (d : dict) :
  h !! l = Some d ->
  (ImageInput.init attrs h).2 !! l
  = Some (if bool_decide (attrs = Some l /\ d <> ∅)
          then <["accept" := VStr "image/*"]> d
          else d).
Proof.
  intros Hl.
  assert (l <> fresh (dom h)) as Hfresh.
  { intros ->. apply (is_fresh (dom h)). apply elem_of_dom. by eexists. }
  destruct attrs as [a|].
  - destruct (decide (h !!! a = (∅ : dict))) as [He|Hne].
    + rewrite image_input_init_empty, image_input_init_fresh by done.
      simpl. rewrite lookup_insert_ne by done. rewrite Hl.
      rewrite bool_decide_eq_false_2; [done|].
      intros [[= ->] Hd]. by rewrite (lookup_total_correct _ _ _ Hl) in He.
    + rewrite image_input_init_nonempty by done. simpl.
      destruct (decide (a = l)) as [->|Hal].
      * rewrite lookup_insert_eq, (lookup_total_correct _ _ _ Hl).
        rewrite bool_decide_eq_true_2; [done|]. split; [done|].
        by rewrite (lookup_total_correct _ _ _ Hl) in Hne.
      * rewrite lookup_insert_ne by done. rewrite Hl.
        rewrite bool_decide_eq_false_2; [done|]. by intros [[= ->] _].
  - rewrite image_input_init_fresh. cbn [snd]. rewrite lookup_insert_ne by done.
    rewrite Hl. by rewrite bool_decide_eq_false_2 by (by intros [? _]).
Qed.

Lemma image_input_heap_witness :
  (ImageInput.init (Some 1%positive)
     {[ 1%positive := (∅ : dict); 2%positive := {[ "id" := VStr "x" ]} ]}).2
    !! 1%positive
  = Some ∅.
Proof.
  pose proof (image_input_heap (Some 1%positive)
           {[ 1%positive := (∅ : dict); 2%positive := {[ "id" := VStr "x" ]} ]}
           1%positive ∅ eq_refl) as H.
  rewrite bool_decide_eq_false_2 in H; [exact H|].
  intros [_ Hd]. by apply Hd.
Defined.

Lemma widget_attrs_id_insert (ctx : context) k e :
  k <> "widget" -> widget_attrs_id (<[k := e]> ctx) = widget_attrs_id ctx.
Proof. intros Hk. unfold widget_attrs_id. by rewrite lookup_insert_ne. Qed.

(** X14. When the context of the base class holds the widget's attributes,
    [get_context] raises [KeyError] if they have no [id]; otherwise it adds
    [image_id], the id followed by ["-image"], and [image_url], which is the
    file only for a named file that is not an upload held in memory and the
    empty string otherwise, and passes every other entry on. *)
Theorem image_input_get_context
    (super_get_context :
       ImageInput.t -> string -> file_value -> option dict -> result context)
    (self : ImageInput.t) (name : string) (value : file_value)
    (attrs : option dict) (ctx : context) (w : gmap string widget_entry)
    (d : dict) :
  super_get_context self name value attrs = Ok ctx ->
  ctx !! "widget" = Some (EWidget w) ->
  w !! "attrs" = Some (WAttrs d) ->
  match d !! "id" with
  | None =>
      ImageInput.get_context super_get_context self name value attrs
      = Raise KeyError
  | Some id =>
      exists ctx',
        ImageInput.get_context super_get_context self name value attrs = Ok ctx' /\
        ctx' !! "image_id" = Some (EVal (VStr (text_type id +:+ "-image"))) /\
        ctx' !! "image_url"
        = Some (match value with
                | FieldFile (String _ _) => EFile value
                | _ => EVal (VStr "")
                end) /\
        forall k, k <> "image_id" -> k <> "image_url" -> ctx' !! k = ctx !! k
  end.
Proof.
  intros Hctx Hw Hd. unfold ImageInput.get_context. rewrite Hctx. simpl.
  assert (widget_attrs_id
            (if file_truth value && negb (is_in_memory value)
             then <["image_url" := EFile value]>
                    (<["image_url" := EVal (VStr "")]> ctx)
             else <["image_url" := EVal (VStr "")]> ctx)
          = match d !! "id" with Some v => Ok v | None => Raise KeyError end)
    as ->.
  { destruct (file_truth value && negb (is_in_memory value));
      rewrite !widget_attrs_id_insert by done;
      unfold widget_attrs_id; by rewrite Hw, Hd. }
  destruct (d !! "id") as [id|]; [|done]. simpl.
  eexists. split; [done|]. split; [by rewrite lookup_insert_eq|]. split.
  - rewrite lookup_insert_ne by done.
    destruct value as [|[|c n]|[|c n]]; simpl; by rewrite ?lookup_insert_eq.
  - intros k Hk1 Hk2. rewrite lookup_insert_ne by done.
    destruct (file_truth value && negb (is_in_memory value));
      by rewrite !lookup_insert_ne.
Qed.

Lemma image_input_get_context_witness :
  let super_get_context :=
    fun (self : ImageInput.t) (name : string) (_ : file_value)
        (attrs : option dict) =>
      Ok ({[ "widget" :=
               EWidget {[ "name" := WVal (VStr name);
                          "attrs" := WAttrs (Widget.build_attrs
                                               (ImageInput.attrs self) attrs) ]} ]}
            : context) in
  let self := (ImageInput.init None ∅).1 in
  ImageInput.get_context super_get_context self "image" (FieldFile "a.png") None
  = Raise KeyError /\
  exists ctx',
    ImageInput.get_context super_get_context self "image" (FieldFile "a.png")
      (Some {[ "id" := VStr "id_image" ]}) = Ok ctx' /\
    ctx' !! "image_id" = Some (EVal (VStr "id_image-image")) /\
    ctx' !! "image_url" = Some (EFile (FieldFile "a.png")).
Proof.
  intros super_get_context self. split.
  - apply (image_input_get_context super_get_context self "image"
             (FieldFile "a.png") None _ _ _ eq_refl eq_refl eq_refl).
  - destruct (image_input_get_context super_get_context self "image"
                (FieldFile "a.png") (Some {[ "id" := VStr "id_image" ]})
                _ _ _ eq_refl eq_refl eq_refl) as (ctx' & H1 & H2 & H3 & _).
    exists ctx'. by repeat split.
Defined.

(** ** WYSIWYGTextArea *)

Lemma wysiwyg_init_class (h : heap) l (d : dict) c :
  h !! l = Some d -> d !! "class" = Some (VStr c) ->
  WYSIWYGTextArea.init (Some (Some l)) h
  = (Ok {| WYSIWYGTextArea.attrs :=
             Textarea.init_attrs
               (Some (<["class" := VStr (c +:+ " wysiwyg")]> d)) |},
     <[l := <["class" := VStr (c +:+ " wysiwyg")]> d]> h).
Proof.
  intros Hl Hc. unfold WYSIWYGTextArea.init, setdefault.
  rewrite (lookup_total_correct _ _ _ Hl), Hc.
  rewrite !lookup_total_insert_eq, Hc.
  by rewrite lookup_total_insert_eq, insert_insert_eq.
Qed.

Lemma wysiwyg_init_no_class (h : heap) l (d : dict) :
  h !! l = Some d -> d !! "class" = None ->
  WYSIWYGTextArea.init (Some (Some l)) h
  = (Ok {| WYSIWYGTextArea.attrs :=
             Textarea.init_attrs (Some (<["class" := VStr " wysiwyg"]> d)) |},
     <[l := <["class" := VStr " wysiwyg"]> d]> h).
Proof.
  intros Hl Hc. unfold WYSIWYGTextArea.init, setdefault.
  rewrite (lookup_total_correct _ _ _ Hl), Hc.
  rewrite !lookup_total_insert_eq, lookup_insert_eq.
  by rewrite lookup_total_insert_eq, !insert_insert_eq.
Qed.

Lemma textarea_init_attrs_lookup (d : dict) k :
  Textarea.init_attrs (Some d) !! k
  = match d !! k with
    | Some v => Some v
    | None => Textarea.default_attrs !! k
    end.
Proof.
  unfold Textarea.init_attrs, Widget.init_attrs. simpl.
  rewrite lookup_union. by destruct (d !! k), (Textarea.default_attrs !! k).
Qed.

(** X15. Built on a caller's dictionary whose [class] is a string [c] (or is
    missing, which counts as the empty string), the widget has the class
    [c] followed by [" wysiwyg"], the caller's other attributes, and the
    defaults of [Textarea] for the attributes that the caller did not give. *)
Theorem wysiwyg_attrs (h : heap) (l : loc) (d : dict) (c : string) :
  h !! l = Some d ->
  d !! "class" = Some (VStr c) \/ (d !! "class" = None /\ c = "") ->
  exists self,
    (WYSIWYGTextArea.init (Some (Some l)) h).1 = Ok self /\
    WYSIWYGTextArea.attrs self !! "class" = Some (VStr (c +:+ " wysiwyg")) /\
    forall k, k <> "class" ->
      WYSIWYGTextArea.attrs self !! k
      = match d !! k with
        | Some v => Some v
        | None => Textarea.default_attrs !! k
        end.
Proof.
  intros Hl [Hc|[Hc ->]].
  - rewrite (wysiwyg_init_class h l d c Hl Hc). eexists. split; [done|].
    simpl. split.
    + by rewrite textarea_init_attrs_lookup, lookup_insert_eq.
    + intros k Hk. by rewrite textarea_init_attrs_lookup, lookup_insert_ne.
  - rewrite (wysiwyg_init_no_class h l d Hl Hc). eexists. split; [done|].
    simpl. split.
    + by rewrite textarea_init_attrs_lookup, lookup_insert_eq.
    + intros k Hk. by rewrite textarea_init_attrs_lookup, lookup_insert_ne.
Qed.

Lemma wysiwyg_attrs_witness :
  exists self,
    (WYSIWYGTextArea.init (Some (Some 1%positive))
       {[ 1%positive := {[ "class" := VStr "big"; "rows" := VStr "3" ]} ]}).1
    = Ok self /\
    WYSIWYGTextArea.attrs self !! "class" = Some (VStr "big wysiwyg") /\
    WYSIWYGTextArea.attrs self !! "rows" = Some (VStr "3") /\
    WYSIWYGTextArea.attrs self !! "cols" = Some (VStr "40").
Proof.
  destruct (wysiwyg_attrs
              {[ 1%positive := {[ "class" := VStr "big"; "rows" := VStr "3" ]} ]}
              1%positive {[ "class" := VStr "big"; "rows" := VStr "3" ]} "big")
    as (self & H1 & H2 & H3); [reflexivity|left; reflexivity|].
  exists self. split; [exact H1|]. split; [exact H2|].
  split; [apply (H3 "rows")|apply (H3 "cols")]; discriminate.
Defined.

(** X16. The class accumulates: a second widget built on the same dictionary
    of the caller gets [" wysiwyg"] twice, as does the dictionary itself. *)
Theorem wysiwyg_class_accumulates (h : heap) (l : loc) (d : dict) (c : string) :
  h !! l = Some d ->
  d !! "class" = Some (VStr c) \/ (d !! "class" = None /\ c = "") ->
  let h1 := (WYSIWYGTextArea.init (Some (Some l)) h).2 in
  exists self,
    (WYSIWYGTextArea.init (Some (Some l)) h1).1 = Ok self /\
    WYSIWYGTextArea.attrs self !! "class"
    = Some (VStr (c +:+ " wysiwyg wysiwyg")) /\
    ((WYSIWYGTextArea.init (Some (Some l)) h1).2 !!! l : dict) !! "class"
    = Some (VStr (c +:+ " wysiwyg wysiwyg")).
Proof.
  intros Hl Hc h1.
  assert (h1 !! l = Some (<["class" := VStr (c +:+ " wysiwyg")]> d)) as Hl1.
  { unfold h1. destruct Hc as [Hc|[Hc ->]].
    - rewrite (wysiwyg_init_class h l d c Hl Hc). simpl. apply lookup_insert_eq.
    - rewrite (wysiwyg_init_no_class h l d Hl Hc). simpl. apply lookup_insert_eq. }
  rewrite (wysiwyg_init_class h1 l _ (c +:+ " wysiwyg") Hl1)
    by apply lookup_insert_eq.
  assert ((c +:+ " wysiwyg") +:+ " wysiwyg" = c +:+ " wysiwyg wysiwyg") as ->.
  { clear. induction c as [|a c IH]; simpl; [done|by rewrite IH]. }
  eexists. split; [done|]. simpl. split.
  - by rewrite textarea_init_attrs_lookup, lookup_insert_eq.
  - by rewrite lookup_total_insert_eq, lookup_insert_eq.
Qed.

Lemma wysiwyg_class_accumulates_witness :
  let h : heap := {[ 1%positive := {[ "class" := VStr "big" ]} ]} in
  let h1 := (WYSIWYGTextArea.init (Some (Some 1%positive)) h).2 in
  exists self,
    (WYSIWYGTextArea.init (Some (Some 1%positive)) h1).1 = Ok self /\
    WYSIWYGTextArea.attrs self !! "class" = Some (VStr "big wysiwyg wysiwyg").
Proof.
  intros h h1.
  destruct (wysiwyg_class_accumulates h 1%positive {[ "class" := VStr "big" ]}
              "big") as (self & H1 & H2 & _); [reflexivity|left; reflexivity|].
  exists self. split; [exact H1|exact H2].
Defined.



(** ** More on AdvancedSelect *)

(** X18. The widget depends on the disabled values only through the set of
    their string forms: order, repetitions and the type behind a string form
    make no difference. *)
Theorem advanced_select_string_forms (attrs : option dict)
    (choices : list (value * string)) (disabled1 disabled2 : list value) :
  (forall s, s ∈ force_text <$> disabled1 <-> s ∈ force_text <$> disabled2) ->
  AdvancedSelect.init attrs choices disabled1
  = AdvancedSelect.init attrs choices disabled2.
Proof.
  intros H. unfold AdvancedSelect.init. f_equal.
  apply set_eq. intros s. by rewrite !elem_of_list_to_set.
Qed.

Lemma advanced_select_string_forms_witness :
  AdvancedSelect.init None [] [VInt 2; VStr "x"; VInt 2]
  = AdvancedSelect.init None [] [VStr "x"; VStr "2"].
Proof.
  apply (advanced_select_string_forms None []
           [VInt 2; VStr "x"; VInt 2] [VStr "x"; VStr "2"]).
  intros s. rewrite !list_elem_of_In. simpl. tauto.
Defined.

(** X19. Without disabled values, the default of the constructor,
    [create_option] returns the option of the base class untouched. *)
Theorem advanced_select_default
    (Select_create_option :
       AdvancedSelect.t -> string -> value -> string -> bool -> Z ->
       option Z -> option dict -> select_option)
    (widget_attrs : option dict) (choices : list (value * string))
    (name : string) (value : value) (label : string) (selected : bool)
    (index : Z) (subindex : option Z) (attrs : option dict) :
  let self := AdvancedSelect.init widget_attrs choices [] in
  AdvancedSelect.create_option Select_create_option self name value label
    selected index subindex attrs
  = Select_create_option self name value label selected index subindex attrs.
Proof.
  intros self. unfold AdvancedSelect.create_option.
  rewrite bool_decide_eq_false_2; [done|].
  unfold self, AdvancedSelect.init. simpl. set_solver.
Qed.

(** ** More on the remote selects *)

(** X20. For the single select, parsing what [format_value] wrote gives the
    string form of a truthy value and the empty string for a falsy one
    ([None], [False], [0], ['']): never [None]. *)
Theorem single_round_trip (data : gmap string string) (name : string)
    (value : value) :
  RemoteSelect.value_from_datadict
    (<[name := RemoteSelect.format_value value]> data) name
  = Some (if truth value then text_type value else "").
Proof.
  unfold RemoteSelect.value_from_datadict, RemoteSelect.format_value, py_or.
  rewrite lookup_insert_eq. by destruct (truth value).
Qed.

(** X21. [render] writes to no dictionary that exists: it allocates one new
    dictionary, which holds the caller's attributes apart from the six that
    [render] sets, and the markup is made of that dictionary. *)
Theorem render_allocates (flatatt : dict -> string) (self : RemoteSelect.t)
    (name formatted : string) (attrs : option loc) (h : heap) :
  exists l d,
    h !! l = None /\
    RemoteSelect.render_with flatatt self name formatted attrs h
    = ("<input " +:+ flatatt d +:+ ">", <[l := d]> h) /\
    forall k,
      k ∉ ["type"; "name"; "data-ajax-url"; "data-multiple"; "value";
           "data-required"] ->
      d !! k = match attrs with
               | Some a => (h !!! a : dict) !! k
               | None => None
               end.
Proof.
  exists (fresh (dom h)). eexists. split; [|split].
  - apply not_elem_of_dom, is_fresh.
  - unfold RemoteSelect.render_with, alloc. simpl.
    by rewrite !lookup_total_insert_eq, insert_insert_eq.
  - intros k Hk. rewrite update_lookup_other by done.
    by destruct attrs.
Qed.

Lemma parse_join (ws : list string) :
  Forall (fun w => Py.truthy w = true) ws ->
  Forall (fun w => comma_free w = true) ws ->
  filter (fun w => Py.truthy w = true) (Py.split_on "," (Py.join "," ws)) = ws.
Proof.
  intros Hne Hcf. destruct (decide (ws = [])) as [->|Hws]; [done|].
  rewrite split_on_join by done. by apply filter_truthy_all.
Qed.

Lemma value_from_datadict_segments (data : gmap string string) name :
  Forall (fun w => Py.truthy w = true)
    (MultipleRemoteSelect.value_from_datadict data name) /\
  Forall (fun w => comma_free w = true)
    (MultipleRemoteSelect.value_from_datadict data name).
Proof.
  unfold MultipleRemoteSelect.value_from_datadict.
  destruct (data !! name) as [s|]; [|by split].
  destruct (join_split_on s) as [_ Hcf]. split.
  - apply Forall_forall. intros w Hw. by apply list_elem_of_filter in Hw as [? _].
  - apply Forall_forall. intros w Hw. apply list_elem_of_filter in Hw as [_ Hw].
    by eapply Forall_forall in Hcf.
Qed.

(** X22. Whatever was submitted, the multiple select returns neither an
    empty string nor a string with a comma in it. *)
Theorem multiple_values_are_segments (data : gmap string string)
    (name w : string) :
  w ∈ MultipleRemoteSelect.value_from_datadict data name ->
  w <> "" /\ comma_free w = true.
Proof.
  intros Hw. destruct (value_from_datadict_segments data name) as [H1 H2].
  eapply Forall_forall in H1, H2; [|done..]. split; [|done]. by destruct w.
Qed.

Lemma multiple_values_are_segments_witness :
  "b" <> "" /\ comma_free "b" = true.
Proof.
  apply (multiple_values_are_segments {[ "ids" := ",a,,b," ]} "ids" "b").
  apply list_elem_of_In. vm_compute. tauto.
Defined.

Lemma format_value_strings (ws : list string) :
  Forall (fun w => Py.truthy w = true) ws ->
  MultipleRemoteSelect.format_value (Some (VStr <$> ws)) = Py.join "," ws.
Proof.
  intros Hws. unfold MultipleRemoteSelect.format_value.
  assert (text_type <$> filter (fun v => truth v = true) (VStr <$> ws) = ws) as Hf.
  { induction Hws as [|w ws Hw _ IH]; [done|].
    rewrite fmap_cons, filter_cons_True by done.
    by rewrite fmap_cons, IH. }
  destruct ws as [|w ws]; [done|]. by rewrite Hf.
Qed.

(** X23. What the multiple select parsed survives a second trip: formatting
    the parsed list and parsing it again gives the same list, whatever the
    submitted string was. *)
Theorem multiple_parse_is_stable (data data' : gmap string string)
    (name name' : string) :
  let parsed := MultipleRemoteSelect.value_from_datadict data name in
  MultipleRemoteSelect.value_from_datadict
    (<[name' := MultipleRemoteSelect.format_value (Some (VStr <$> parsed))]> data')
    name'
  = parsed.
Proof.
  intros parsed.
  destruct (value_from_datadict_segments data name) as [H1 H2].
  fold parsed in H1, H2.
  rewrite format_value_strings by done.
  unfold MultipleRemoteSelect.value_from_datadict at 1.
  rewrite lookup_insert_eq. by apply parse_join.
Qed.

Lemma join_empty (ws : list string) :
  Forall (fun w => Py.truthy w = true) ws -> Py.join "," ws = "" -> ws = [].
Proof.
  intros Hws. destruct Hws as [|w ws Hw _]; [done|].
  destruct w as [|c w]; [done|]. by destruct ws.
Qed.

(** X24. [format_value] gives the empty string exactly for [None] and for
    the lists without a truthy entry, the empty list among them. *)
Theorem multiple_format_empty (value : option (list value)) :
  MultipleRemoteSelect.format_value value = ""
  <-> match value with
      | Some l => Forall (fun v => truth v = false) l
      | None => True
      end.
Proof.
  destruct value as [l|]; [|done].
  assert (Forall (fun w => Py.truthy w = true)
            (text_type <$> filter (fun v => truth v = true) l)) as Hne.
  { apply Forall_fmap, Forall_forall. intros v Hv.
    apply list_elem_of_filter in Hv as [Ht _]. by apply text_type_truthy. }
  assert (MultipleRemoteSelect.format_value (Some l)
          = Py.join "," (text_type <$> filter (fun v => truth v = true) l)) as ->.
  { by destruct l. }
  split.
  - intros Hj. apply (join_empty _ Hne) in Hj. apply fmap_nil_inv in Hj.
    apply Forall_forall. intros v Hv.
    destruct (truth v) eqn:Ht; [|done].
    assert (v ∈ filter (fun v => truth v = true) l) as Hin
      by (by apply list_elem_of_filter).
    rewrite Hj in Hin. by apply elem_of_nil in Hin.
  - intros Hl.
    assert (filter (fun v => truth v = true) l = []) as ->; [|done].
    clear Hne. induction Hl as [|v l Hv _ IH]; [done|].
    by rewrite filter_cons_False by (by rewrite Hv).
Qed.

Lemma multiple_format_empty_witness :
  MultipleRemoteSelect.format_value (Some [VInt 0; VStr ""; VNone; VBool false])
  = "".
Proof.
  apply (multiple_format_empty (Some [VInt 0; VStr ""; VNone; VBool false])).
  by repeat constructor.
Defined.

(** ** The order of the replacements *)

Lemma lookupc_None x T : lookupc x T = None <-> x ∉ T.*1.
Proof.
  induction T as [|[y v] T IH]; simpl.
  - split; [intros _; apply not_elem_of_nil|done].
  - rewrite not_elem_of_cons. destruct (Ascii.eqb x y) eqn:E.
    + apply Ascii.eqb_eq in E as ->. split; [done|]. by intros [? _].
    + apply Ascii.eqb_neq in E. rewrite IH. split; [done|]. by intros [_ ?].
Qed.

Lemma table_ok_spec T :
  table_ok T = true <->
  NoDup T.*1 /\ Forall (fun e => e.1 <> "%"%char /\ no_pct e.2 = true) T.
Proof.
  induction T as [|[x v] T IH]; simpl.
  - split; [intros _; split; constructor|done].
  - unfold entry_ok. rewrite !andb_true_iff, negb_true_iff, Ascii.eqb_neq.
    rewrite bool_decide_eq_true, lookupc_None, IH, NoDup_cons, Forall_cons.
    simpl. tauto.
Qed.

Lemma table_ok_perm T T' : T ≡ₚ T' -> table_ok T = true -> table_ok T' = true.
Proof.
  intros HP. rewrite !table_ok_spec. intros [Hnd Hf]. split.
  - by rewrite <- HP.
  - by rewrite <- HP.
Qed.

Lemma lookupc_elem T x v :
  table_ok T = true -> (lookupc x T = Some v <-> (x, v) ∈ T).
Proof.
  intros Hok. split.
  - clear Hok. induction T as [|[y w] T IH]; [done|]. simpl.
    destruct (Ascii.eqb x y) eqn:E.
    + apply Ascii.eqb_eq in E as ->. intros [= ->]. by left.
    + intros H. right. by apply IH.
  - induction T as [|[y w] T IH]; [by intros ?%elem_of_nil|].
    simpl in Hok. apply andb_true_iff in Hok as [He Hok].
    intros H. apply elem_of_cons in H as [[= -> ->]|H]; simpl.
    + by rewrite Ascii.eqb_refl.
    + destruct (Ascii.eqb x y) eqn:E; [|by apply IH].
      apply Ascii.eqb_eq in E as ->. unfold entry_ok in He.
      rewrite (IH Hok H), bool_decide_eq_false_2 in He by done.
      by rewrite andb_false_r in He.
Qed.

Lemma lookupc_perm T T' x :
  T ≡ₚ T' -> table_ok T = true -> lookupc x T = lookupc x T'.
Proof.
  intros HP Hok. pose proof (table_ok_perm _ _ HP Hok) as Hok'.
  destruct (lookupc x T) as [v|] eqn:E.
  - symmetry. apply lookupc_elem; [done|]. rewrite <- HP. by apply lookupc_elem.
  - destruct (lookupc x T') as [v|] eqn:E'; [|done].
    apply lookupc_elem in E'; [|done]. rewrite <- HP in E'.
    apply lookupc_elem in E'; [|done]. congruence.
Qed.

Lemma scan_ext T T' s :
  (forall x, lookupc x T = lookupc x T') -> scan T s = scan T' s.
Proof.
  intros H. induction s as [|c|c d s IH1 IH2] using string_ind2; [done|done|].
  change (scan T (String c (String d s))) with
    (if Ascii.eqb c "%" then
       match lookupc d T with
       | Some v => v +:+ scan T s
       | None => String c (scan T (String d s))
       end
     else String c (scan T (String d s))).
  change (scan T' (String c (String d s))) with
    (if Ascii.eqb c "%" then
       match lookupc d T' with
       | Some v => v +:+ scan T' s
       | None => String c (scan T' (String d s))
       end
     else String c (scan T' (String d s))).
  by rewrite H, IH1, IH2.
Qed.

Lemma contains_pct2_no_pct v z :
  no_pct v = true -> Py.contains "%%" (v +:+ z) = Py.contains "%%" z.
Proof.
  induction v as [|c v IH]; [done|]. simpl no_pct. intros H.
  apply andb_true_iff in H as [Hc Hv]. apply negb_true_iff in Hc.
  simpl String.append.
  change (Py.contains "%%" (String c (v +:+ z))) with
    (String.prefix "%%" (String c (v +:+ z)) || Py.contains "%%" (v +:+ z)).
  rewrite prefix_cons, (Ascii.eqb_sym "%" c), Hc. simpl. by apply IH.
Qed.

Lemma contains_pct2_cons c z :
  Py.contains "%%" (String c z)
  = Ascii.eqb c "%" && String.prefix "%" z || Py.contains "%%" z.
Proof.
  change (Py.contains "%%" (String c z)) with
    (String.prefix "%%" (String c z) || Py.contains "%%" z).
  by rewrite prefix_cons, (Ascii.eqb_sym "%" c).
Qed.

(** A replacement without ["%"] brings no ["%%"] into a text that has none. *)
Lemma scan_one_no_pct2 x v u :
  x <> "%"%char -> no_pct v = true ->
  Py.contains "%%" u = false -> Py.contains "%%" (scan [(x, v)] u) = false.
Proof.
  intros Hx Hv.
  induction u as [|c|c d s IH1 IH2] using string_ind2; intros Hu.
  - done.
  - simpl. by destruct (Ascii.eqb c "%").
  - rewrite contains_pct2_cons in Hu. apply orb_false_iff in Hu as [Hcd Hds].
    pose proof Hds as Hds'. rewrite contains_pct2_cons in Hds'.
    apply orb_false_iff in Hds' as [_ Hs].
    destruct (ascii_dec c "%") as [->|Hc].
    + rewrite Ascii.eqb_refl in Hcd. simpl in Hcd.
      rewrite prefix_cons, prefix_nil, andb_true_r in Hcd.
      rewrite Ascii.eqb_sym in Hcd.
      destruct (ascii_dec d x) as [->|Hdx].
      * rewrite (scan_token [(x, v)] x v) by (simpl; by rewrite Ascii.eqb_refl).
        rewrite contains_pct2_no_pct by done. by apply IH1.
      * rewrite scan_pct_keep.
        2:{ apply starts_token_None. simpl. by apply Ascii.eqb_neq in Hdx as ->. }
        apply Ascii.eqb_neq in Hcd.
        rewrite (scan_other _ d) by done.
        rewrite !contains_pct2_cons, Ascii.eqb_refl. simpl.
        rewrite prefix_cons, (Ascii.eqb_sym "%" d).
        apply Ascii.eqb_neq in Hcd. rewrite Hcd. simpl. by apply IH1.
    + rewrite scan_other by done. rewrite contains_pct2_cons.
      apply Ascii.eqb_neq in Hc. rewrite Hc. simpl. by apply IH2.
Qed.

Lemma contains_pct2_token x u :
  Py.contains "%%" u = false -> Py.contains (String "%" (pct x)) u = false.
Proof.
  induction u as [|c u IH]; [done|]. rewrite contains_pct2_cons.
  intros H. apply orb_false_iff in H as [Hc Hu].
  change (Py.contains (String "%" (pct x)) (String c u)) with
    (String.prefix (String "%" (pct x)) (String c u)
     || Py.contains (String "%" (pct x)) u).
  rewrite (IH Hu), orb_false_r. unfold pct. rewrite prefix_cons.
  rewrite (Ascii.eqb_sym "%" c).
  destruct (Ascii.eqb c "%"); [|done]. simpl in *.
  destruct u as [|d u]; [done|].
  rewrite prefix_cons in *. rewrite prefix_nil, andb_true_r in Hc.
  by rewrite Hc.
Qed.

(** On a text without ["%%"] the loop of replacements is one pass, in
    whatever order the entries are applied. *)
Lemma replace_all_scan_no_pct2 T :
  table_ok T = true ->
  forall s, Py.contains "%%" s = false -> replace_all (strtab T) s = scan T s.
Proof.
  induction T as [|[x v] T IH]; intros Hok s Hs.
  - by rewrite scan_nil.
  - simpl in Hok. apply andb_true_iff in Hok as [He Hok].
    pose proof He as He'. unfold entry_ok in He'.
    apply andb_true_iff in He' as [He' Hv].
    apply andb_true_iff in He' as [Hx _].
    apply negb_true_iff, Ascii.eqb_neq in Hx.
    rewrite replace_all_cons, IH; [|done|by apply scan_one_no_pct2].
    apply scan_fuse; [done|by apply table_ok_no_pct_key|].
    intros _. by apply contains_pct2_token.
Qed.

Lemma replace_all_perm T tbl' s :
  table_ok T = true -> strtab T ≡ₚ tbl' ->
  Py.contains "%%" s = false ->
  replace_all tbl' s = replace_all (strtab T) s.
Proof.
  intros Hok HP Hs. symmetry in HP.
  apply Permutation_map_inv in HP as (T' & -> & HP).
  pose proof (table_ok_perm _ _ HP Hok) as Hok'.
  fold (strtab T').
  rewrite !replace_all_scan_no_pct2 by done.
  apply scan_ext. intros x. symmetry. by apply lookupc_perm.
Qed.

(** X25. On a format without ["%%"] the result of the datetime, the date and
    the time format does not depend on the order in which the dictionary of
    replacements is gone through: every reordering of the dictionary gives
    the loop the same result. *)
Theorem loop_order_irrelevant (replacements : table) (format : string) :
  Py.contains "%%" format = false ->
  (replacements ≡ₚ datetime_replacements ->
   replace_all replacements format = replace_all datetime_replacements format) /\
  (replacements ≡ₚ time_replacements ->
   replace_all replacements format = replace_all time_replacements format).
Proof.
  intros Hf. split; intros HP.
  - rewrite datetime_replacements_strtab in *.
    by apply replace_all_perm.
  - rewrite time_replacements_strtab in *.
    by apply replace_all_perm.
Qed.

Lemma loop_order_irrelevant_witness :
  replace_all [ ("%S", "ss"); ("%M", "ii"); ("%I", "HH"); ("%H", "hh") ]
    "%I:%M:%S %p"
  = replace_all time_replacements "%I:%M:%S %p".
Proof.
  destruct (loop_order_irrelevant
              [ ("%S", "ss"); ("%M", "ii"); ("%I", "HH"); ("%H", "hh") ]
              "%I:%M:%S %p" eq_refl) as [_ H].
  apply H. unfold time_replacements.
  apply NoDup_Permutation.
  - repeat (apply NoDup_cons; split;
              [rewrite list_elem_of_In; simpl; intuition discriminate|]).
    apply NoDup_nil_2.
  - repeat (apply NoDup_cons; split;
              [rewrite list_elem_of_In; simpl; intuition discriminate|]).
    apply NoDup_nil_2.
  - intros x. rewrite !list_elem_of_In. simpl. tauto.
Defined.

(** The order does matter when ["%"] stands before a token: with ["%I"]
    applied before ["%H"], the ["%"] left before the new ["HH"] is taken for
    the token ["%H"]. *)
Example loop_order_matters :
  replace_all [ ("%I", "HH"); ("%H", "hh"); ("%M", "ii"); ("%S", "ss") ] "%%I"
  = "hhH" /\
  replace_all time_replacements "%%I" = "%HH".
Proof. by vm_compute. Qed.

(** ** The translation functions in any order of the dictionary *)

(** In insertion order the functions are those of the definitions. *)
Lemma functions_in_insertion_order (format : string) :
  datetime_format_to_js_datetime_format_in datetime_replacements format
  = datetime_format_to_js_datetime_format format /\
  datetime_format_to_js_date_format_in datetime_replacements format
  = datetime_format_to_js_date_format format /\
  datetime_format_to_js_time_format_in time_replacements format
  = datetime_format_to_js_time_format format /\
  datetime_format_to_js_input_mask_in input_mask_replacements format
  = datetime_format_to_js_input_mask format.
Proof. done. Qed.

(** A translation by a table is a translation by every reordering of it. *)
Lemma translates_perm (tbl tbl' : table) (s t : string) :
  tbl ≡ₚ tbl' -> translates tbl s t -> translates tbl' s t.
Proof.
  intros HP H. induction H as [|k v s t Hk _ IH|c s t Hk _ IH].
  - constructor.
  - apply translates_token; [by rewrite <- HP|done].
  - apply translates_other; [|done].
    intros k v Hkv. apply (Hk k v). by rewrite HP.
Qed.

Lemma nonempty_keys_perm (tbl tbl' : table) :
  tbl ≡ₚ tbl' -> nonempty_keys tbl -> nonempty_keys tbl'.
Proof.
  intros HP H k Hk. apply H. unfold keys in *.
  rewrite list_elem_of_In in *.
  eapply Permutation_in; [|exact Hk]. apply Permutation_map. by symmetry.
Qed.

(** The loop of replacements on a text without ["%%"], in any order. *)
Lemma replace_all_any_order T (replacements : table) (s : string) :
  table_ok T = true -> replacements ≡ₚ strtab T ->
  Py.contains "%%" s = false ->
  translates (strtab T) s (replace_all replacements s).
Proof.
  intros Hok HP Hs. rewrite (replace_all_perm T replacements s) by done.
  rewrite replace_all_scan_no_pct2 by done. apply scan_translates.
Qed.

(** The regular expression of the input mask, with its alternatives in any
    order. *)
Lemma input_mask_any_order (replacements : table) (format : string) :
  replacements ≡ₚ input_mask_replacements ->
  exists t, translates input_mask_replacements format t /\
    datetime_format_to_js_input_mask_in replacements format = Ok (Py.strip t).
Proof.
  intros HP.
  assert (replacements <> []) as Hnil.
  { intros ->. by apply Permutation_nil_l in HP. }
  assert (nonempty_keys replacements) as Hne.
  { eapply nonempty_keys_perm; [symmetry; exact HP|].
    apply input_mask_keys_nonempty. }
  destruct (multiple_replace_translates replacements Hnil Hne format)
    as (t & Ht & Htr).
  exists t. split; [by apply (translates_perm replacements)|].
  unfold datetime_format_to_js_input_mask_in. by rewrite Ht.
Qed.

(** The input mask does not depend on the order of the dictionary. *)
Lemma input_mask_order_irrelevant (replacements : table) (format : string) :
  replacements ≡ₚ input_mask_replacements ->
  datetime_format_to_js_input_mask_in replacements format
  = datetime_format_to_js_input_mask format.
Proof.
  intros HP. destruct (input_mask_any_order replacements format HP)
    as (t & Ht & ->).
  rewrite input_mask_replacements_strtab in Ht.
  rewrite (translates_scan input_mask_ctable format t eq_refl Ht).
  by rewrite input_mask_scan.
Qed.

(** The order of the dictionary does matter for the time format when ["%"]
    stands before a token. *)
Example time_format_order_matters :
  datetime_format_to_js_time_format_in
    [ ("%M", "ii"); ("%I", "HH"); ("%H", "hh"); ("%S", "ss") ] "%%I" = "hhH" /\
  datetime_format_to_js_time_format_in time_replacements "%%I" = "%HH" /\
  datetime_format_to_js_datetime_format_in
    [ ("%m", "mm"); ("%I", "HH"); ("%Y", "yyyy"); ("%H", "hh");
      ("%d", "dd"); ("%y", "yy"); ("%M", "ii"); ("%S", "ss") ] "%%I" = "hhH".
Proof. by vm_compute. Qed.

Ltac nodup_by_cases :=
  repeat (apply NoDup_cons; split;
            [rewrite list_elem_of_In; simpl; intuition discriminate|]);
  apply NoDup_nil_2.

Ltac perm_by_nodup :=
  apply NoDup_Permutation;
    [nodup_by_cases|nodup_by_cases
    |intros ?; rewrite !list_elem_of_In; simpl; tauto].

(** C1, as amended. In whatever order the interpreter goes through the
    dictionary of replacements, each function translates the part of the
    format it selects and strips the white space around the result: the
    input mask and the datetime format take the whole format, the date
    format its first word, the time format its second word when there are
    two, the whole format otherwise. The translation maps every recognized
    token to the client-side token of the function's table and keeps every
    other character in place. For the datetime, the date and the time
    format this needs a selected part without ["%%"]; the input mask needs
    nothing. *)
Theorem translation_of_selected_part (dt tm mk : table) (format : string) :
  dt ≡ₚ datetime_replacements ->
  tm ≡ₚ time_replacements ->
  mk ≡ₚ input_mask_replacements ->
  (exists t, translates input_mask_replacements format t /\
     datetime_format_to_js_input_mask_in mk format = Ok (Py.strip t)) /\
  (Py.contains "%%" format = false ->
   exists t, translates datetime_replacements format t /\
     datetime_format_to_js_datetime_format_in dt format = Py.strip t) /\
  (forall w ws, Py.split format = w :: ws ->
   Py.contains "%%" w = false ->
   exists t, translates datetime_replacements w t /\
     datetime_format_to_js_date_format_in dt format = Ok (Py.strip t)) /\
  (forall w0 w ws, Py.split format = w0 :: w :: ws ->
   Py.contains "%%" w = false ->
   exists t, translates time_replacements w t /\
     datetime_format_to_js_time_format_in tm format = Py.strip t) /\
  (length (Py.split format) < 2 ->
   Py.contains "%%" format = false ->
   exists t, translates time_replacements format t /\
     datetime_format_to_js_time_format_in tm format = Py.strip t).
Proof.
  intros Hdt Htm Hmk.
  split; [|split; [|split; [|split]]].
  - by apply input_mask_any_order.
  - intros Hs. eexists. split; [|done].
    rewrite datetime_replacements_strtab in *.
    by apply replace_all_any_order.
  - intros w ws Hw Hs. eexists. split.
    + rewrite datetime_replacements_strtab in *.
      by apply (replace_all_any_order datetime_ctable dt).
    + unfold datetime_format_to_js_date_format_in. by rewrite Hw.
  - intros w0 w ws Hw Hs. eexists. split.
    + rewrite time_replacements_strtab in *.
      by apply (replace_all_any_order time_ctable tm).
    + unfold datetime_format_to_js_time_format_in. by rewrite Hw.
  - intros Hlen Hs. eexists. split.
    + rewrite time_replacements_strtab in *.
      by apply (replace_all_any_order time_ctable tm).
    + unfold datetime_format_to_js_time_format_in.
      destruct (Py.split format) as [|w0 [|w ws]];
        [done|done|simpl in Hlen; lia].
Qed.

Lemma translation_of_selected_part_witness :
  let dt := [ ("%m", "mm"); ("%I", "HH"); ("%Y", "yyyy"); ("%H", "hh");
              ("%d", "dd"); ("%y", "yy"); ("%M", "ii"); ("%S", "ss") ] in
  let tm := [ ("%M", "ii"); ("%I", "HH"); ("%H", "hh"); ("%S", "ss") ] in
  let mk := [ ("%m", "m"); ("%I", "h"); ("%Y", "y"); ("%H", "h");
              ("%d", "d"); ("%y", "99"); ("%M", "s"); ("%S", "s") ] in
  (exists t, translates input_mask_replacements "%d/%m/%Y %H:%M" t /\
     datetime_format_to_js_input_mask_in mk "%d/%m/%Y %H:%M"
     = Ok (Py.strip t)) /\
  (exists t, translates datetime_replacements "%d/%m/%Y %H:%M" t /\
     datetime_format_to_js_datetime_format_in dt "%d/%m/%Y %H:%M"
     = Py.strip t) /\
  (exists t, translates datetime_replacements "%d/%m/%Y" t /\
     datetime_format_to_js_date_format_in dt "%d/%m/%Y %H:%M"
     = Ok (Py.strip t)) /\
  (exists t, translates time_replacements "%H:%M" t /\
     datetime_format_to_js_time_format_in tm "%d/%m/%Y %H:%M" = Py.strip t).
Proof.
  intros dt tm mk.
  destruct (translation_of_selected_part dt tm mk "%d/%m/%Y %H:%M")
    as (Hmk & Hdt & Hd & Ht & _).
  - unfold dt, datetime_replacements. perm_by_nodup.
  - unfold tm, time_replacements. perm_by_nodup.
  - unfold mk, input_mask_replacements. perm_by_nodup.
  - split; [exact Hmk|].
    split; [apply Hdt; reflexivity|].
    split; [apply (Hd "%d/%m/%Y" ["%H:%M"]); reflexivity|].
    apply (Ht "%d/%m/%Y" "%H:%M" []); reflexivity.
Defined.

Lemma render_allocates_witness :
  exists l d,
    ({[ 1%positive := {[ "class" := VStr "wide" ]} ]} : heap) !! l = None /\
    RemoteSelect.render_with (fun _ => "")
      {| RemoteSelect.is_multiple := false;
         RemoteSelect.lookup_url := "/lookup/";
         RemoteSelect.is_required := true;
         RemoteSelect.attrs := ∅ |}
      "product" "7" (Some 1%positive)
      {[ 1%positive := {[ "class" := VStr "wide" ]} ]}
    = ("<input " +:+ "" +:+ ">",
       <[l := d]> {[ 1%positive := {[ "class" := VStr "wide" ]} ]}) /\
    d !! "class" = Some (VStr "wide").
Proof.
  destruct (render_allocates (fun _ => "")
              {| RemoteSelect.is_multiple := false;
                 RemoteSelect.lookup_url := "/lookup/";
                 RemoteSelect.is_required := true;
                 RemoteSelect.attrs := ∅ |}
              "product" "7" (Some 1%positive)
              {[ 1%positive := {[ "class" := VStr "wide" ]} ]})
    as (l & d & H1 & H2 & H3).
  exists l, d. split; [exact H1|]. split; [exact H2|].
  rewrite (H3 "class"); [reflexivity|].
  rewrite list_elem_of_In. simpl. intuition discriminate.
Defined.
